(** * cfssl-sidekick: the acquisition / rotation controller

    A shallow embedding of [controller.go] (functions [run],
    [handleCertificateResponse], [doSigningRequest]) together with the
    properties of the controller stated in the specification.

    The Go code is sequential code with side effects on the operating
    system: it logs, touches the file system, talks HTTP, starts a child
    process and sleeps.  It is embedded in a small monad [M] that threads a
    [World] (file system, open descriptors, the trace of observable actions)
    and whose results distinguish a normal return from a Go panic, from
    [os.Exit], and from a loop that is still turning when the fuel of the
    model runs out.  Whatever the two source files call but do not define
    (the operating system, the network, library functions, and the helpers
    of the repository that live in other files) is collected in the record
    [Env]; every theorem quantifies over it. *)

From Stdlib Require Import ZArith String List Bool Lia.
From stdpp Require Import base option list gmap strings.
Import ListNotations.

Local Open Scope Z_scope.
Local Open Scope string_scope.
Local Open Scope list_scope.

(** ** Go values *)

(** A Go [error] is represented by its message; a possibly-nil [error]
    is an [option error]. *)
Definition error := string.

(** [time.Duration]: a signed count of nanoseconds. *)
Definition Duration := Z.
Definition Nanosecond : Duration := 1.
Definition Second : Duration := 1000000000 * Nanosecond.

(** A pair [(value, error)] returned by a Go function. *)
Inductive result (A : Type) : Type :=
| Good (a : A)
| Bad (e : error).
Arguments Good {A} a.
Arguments Bad {A} e.

(** ** Configuration

    The fields are those of the composite literal in [main.go]. *)
Record Config : Type := mkConfig {
  CertsDir : string;
  Country : string;
  Domains : list string;
  EndpointProfile : string;
  EndpointToken : string;
  EndpointURL : string;
  ExecCommand : string;
  Expiry : Duration;
  Locality : string;
  Onetime : bool;
  Organization : string;
  Province : string;
  Size : Z;
  Timeout : Duration;
  TLSCAPath : string;
  TLSCAFilename : string;
  TLSCertificateFilename : string;
  TLSPrivateKeyFilename : string;
  Verbose : bool
}.

(** ** Wire entities

    Modelled from the spec: the type declarations of the signing request and
    of the signing response are not part of the two source files; their
    fields are the ones [controller.go] selects, with the shape given in the
    wire-protocol section of the specification. *)
Record SigningRequest : Type := mkSigningRequest {
  CertificateRequest : string;
  Profile : string;
  Bundle : bool
}.

Record AuthSigningRequest : Type := mkAuthSigningRequest {
  Token : string;
  Request : SigningRequest
}.

Record ResponseMessage : Type := mkResponseMessage {
  Code : Z;
  Message : string
}.

Record BundleResult : Type := mkBundleResult {
  BundleText : string
}.

Record SigningResult : Type := mkSigningResult {
  Certificate : string;
  ResultBundle : BundleResult
}.

Record SigningResponse : Type := mkSigningResponse {
  Success : bool;
  Result : SigningResult;
  Errors : list ResponseMessage
}.

(** The [interface{}] handed to [json.Marshal] holds one of two shapes. *)
Inductive Payload : Type :=
| PlainBody (request : SigningRequest)
| AuthBody (wrapped : AuthSigningRequest).

(** ** Observable actions *)

Inductive Level : Type := InfoLevel | ErrorLevel.

Inductive Event : Type :=
| EvLog (lvl : Level) (msg : string) (fields : list (string * string))
| EvMkdirAll (path : string) (perm : Z)
| EvCreateCSR
| EvEncodeCSR
| EvWatchdog (timeout : Duration)
| EvHTTP (method url body : string)
| EvOpenFile (name : string) (flag perm : Z)
| EvWriteString (name s : string)
| EvClose (name : string)
| EvStart (command : string) (args : list string)
| EvAfterFunc (d : Duration)
| EvKill
| EvWait
| EvTimerStop
| EvSend (value : bool)
| EvSleep (d : Duration)
| EvExit (code : Z).

(** ** The world *)

Record File : Type := mkFile {
  mode : Z;
  data : string
}.

Record World : Type := mkWorld {
  fs : gmap string File;      (* path |-> file *)
  fds : list string;          (* open descriptors, by path *)
  trace : list Event;         (* oldest action first *)
  attempt : nat               (* completed turns of the rotation loop *)
}.

Definition set_fs (f : gmap string File) (w : World) : World :=
  mkWorld f (fds w) (trace w) (attempt w).
Definition set_fds (l : list string) (w : World) : World :=
  mkWorld (fs w) l (trace w) (attempt w).
Definition set_trace (t : list Event) (w : World) : World :=
  mkWorld (fs w) (fds w) t (attempt w).
Definition set_attempt (n : nat) (w : World) : World :=
  mkWorld (fs w) (fds w) (trace w) n.

(** ** What the controller calls but does not define *)

(** How the child process of the reload hook and its deadline timer
    interleave.  [cmd.Start] either fails (and [cmd.Process] stays nil) or
    succeeds; concurrently with [cmd.Wait], the function armed with
    [time.AfterFunc] runs if the deadline passes before [timer.Stop]. *)
Inductive HookRun : Type :=
| StartFailed (start_err : error) (timer_fired : bool)
| Started (kill : option (option error)) (wait_err : option error).

Record HTTPResponse : Type := mkHTTPResponse {
  StatusCode : Z;
  Body : result string        (* what [ioutil.ReadAll] makes of the body *)
}.

Record Env : Type := mkEnv {
  (* helpers of the repository defined in other files *)
  CertificateFile : Config -> string;
  PrivateKeyFile : Config -> string;
  CAFile : Config -> string;
  createCertificateRequest : Config -> result (string * string);
  encodeCertificateRequest : string -> result string;
  (* libraries *)
  Duration_String : Duration -> string;
  json_Marshal : Payload -> result string;
  json_Unmarshal : string -> result SigningResponse;
  http_NewRequest : string -> string -> string -> option error;
  (* the operating system and the network, per turn of the loop *)
  umask : Z;
  os_MkdirAll : string -> Z -> option error;
  open_fault : nat -> string -> option error;
  write_fault : nat -> string -> string -> option (nat * error);
  client_Do : nat -> string -> string -> result HTTPResponse;
  hook_run : nat -> string -> list string -> Duration -> HookRun
}.

(** ** The monad of the embedding *)

Inductive Res (A : Type) : Type :=
| Val (a : A)                 (* the function returned *)
| Panic (msg : string)        (* a goroutine panicked: the process aborts *)
| Exit (code : Z)             (* os.Exit *)
| Running.                    (* the loop goes on beyond the fuel given *)
Arguments Val {A} a.
Arguments Panic {A} msg.
Arguments Exit {A} code.
Arguments Running {A}.

Definition M (A : Type) : Type := World -> Res A * World.

Definition ret {A} (a : A) : M A := fun w => (Val a, w).

Definition bind {A B} (m : M A) (k : A -> M B) : M B :=
  fun w =>
    match m w with
    | (Val a, w') => k a w'
    | (Panic msg, w') => (Panic msg, w')
    | (Exit code, w') => (Exit code, w')
    | (Running, w') => (Running, w')
    end.

Declare Scope go_scope.
Delimit Scope go_scope with go.
Notation "x <- m ;; k" := (bind m (fun x => k))
  (at level 100, m at next level, right associativity) : go_scope.
Notation "m ;; k" := (bind m (fun _ => k))
  (at level 100, right associativity) : go_scope.
Local Open Scope go_scope.

Definition emit (e : Event) : M unit :=
  fun w => (Val tt, set_trace (trace w ++ [e]) w).

Definition panic {A} (msg : string) : M A := fun w => (Panic msg, w).

Definition os_Exit {A} (code : Z) : M A :=
  fun w => (Exit code, set_trace (trace w ++ [EvExit code]) w).

Definition log (lvl : Level) (msg : string) (fields : list (string * string)) : M unit :=
  emit (EvLog lvl msg fields).

Definition time_Sleep (d : Duration) : M unit := emit (EvSleep d).

Definition turn : M nat := fun w => (Val (attempt w), w).

(** [defer cleanup] around [body]: the deferred call runs when the body
    returns.  No statement under the one [defer] of the controller panics on
    the goroutine of the handler; a panic of the timer goroutine or an
    [os.Exit] ends the process without unwinding. *)
Definition defer {A} (cleanup : M unit) (body : M A) : M A :=
  fun w =>
    match body w with
    | (Val a, w') =>
        match cleanup w' with
        | (Val _, w'') => (Val a, w'')
        | (Panic msg, w'') => (Panic msg, w'')
        | (Exit code, w'') => (Exit code, w'')
        | (Running, w'') => (Running, w'')
        end
    | other => other
    end.

(** ** The operating system, as the controller uses it *)

(** Values of the [os] package on Linux. *)
Definition O_RDWR : Z := 2.
Definition O_CREATE : Z := 64.
Definition O_TRUNC : Z := 512.

(** The two [os.FileMode] literals of the controller, [0600] and [0770]
    (octal). *)
Definition FileMode_0600 : Z := 6 * 64.
Definition FileMode_0770 : Z := 7 * 64 + 7 * 8.

Definition has_flag (flag bit : Z) : bool := negb (Z.eqb (Z.land flag bit) 0).

(** Bytes [n..] of a string. *)
Definition string_drop (n : nat) (s : string) : string :=
  String.substring n (String.length s - n) s.

(** Bytes [0..n-1] of a string. *)
Definition string_take (n : nat) (s : string) : string :=
  String.substring 0 n s.

(** [os.OpenFile name flag perm].  An existing file is truncated when
    [O_TRUNC] is set and keeps its mode; a missing file is created when
    [O_CREATE] is set, with the permission bits the umask leaves.  The
    descriptor is represented by the path. *)
Definition os_OpenFile (env : Env) (name : string) (flag perm : Z) : M (result string) :=
  fun w =>
    let w1 := set_trace (trace w ++ [EvOpenFile name flag perm]) w in
    match open_fault env (attempt w) name with
    | Some err => (Val (Bad err), w1)
    | None =>
        match fs w !! name with
        | Some f =>
            let f' := if has_flag flag O_TRUNC then mkFile (mode f) "" else f in
            (Val (Good name), set_fds (name :: fds w1) (set_fs (<[name := f']> (fs w1)) w1))
        | None =>
            if has_flag flag O_CREATE then
              let f' := mkFile (Z.land perm (Z.lnot (umask env))) "" in
              (Val (Good name), set_fds (name :: fds w1) (set_fs (<[name := f']> (fs w1)) w1))
            else (Val (Bad "no such file or directory"), w1)
        end
    end.

(** What a write of [s] at offset 0 leaves in a file holding [old]. *)
Definition overwrite (old s : string) : string :=
  s +:+ string_drop (String.length s) old.

(** [file.WriteString s] on a descriptor just opened (offset 0).  A failing
    write may have put a prefix of [s] into the file. *)
Definition file_WriteString (env : Env) (file s : string) : M (option error) :=
  fun w =>
    let w1 := set_trace (trace w ++ [EvWriteString file s]) w in
    let put (written : string) :=
      match fs w !! file with
      | Some f => set_fs (<[file := mkFile (mode f) (overwrite (data f) written)]> (fs w1)) w1
      | None => w1
      end in
    match write_fault env (attempt w) file s with
    | Some (n, err) => (Val (Some err), put (string_take n s))
    | None => (Val None, put s)
    end.

Fixpoint remove_fd (name : string) (l : list string) : list string :=
  match l with
  | [] => []
  | x :: l' => if String.eqb x name then l' else x :: remove_fd name l'
  end.

Definition file_Close (file : string) : M unit :=
  fun w => (Val tt, set_fds (remove_fd file (fds w)) (set_trace (trace w ++ [EvClose file]) w)).

(** Modelled from the spec: [makeOperationTimeout] is defined outside the
    two source files.  The specification describes it as the watchdog that
    races a single success signal against the operational timeout on its own
    task; here the call is an observable action, and the send on the channel
    it returns is the "signal the Watchdog" step, which completes. *)
Definition makeOperationTimeout (timeout : Duration) : M unit :=
  emit (EvWatchdog timeout).

Definition send_done (value : bool) : M unit := emit (EvSend value).

(** ** controller.go *)

Section Controller.

Variable env : Env.
Variable c : Config.

(** The reload hook, lines 168-189 of the handler: [exec.Command], the
    unchecked [cmd.Start], the deadline armed with [time.AfterFunc],
    [cmd.Wait], [timer.Stop] and the final report.  The function armed on
    the timer logs only when [Kill] itself fails.  It and the handler both
    assign the variable [err]; the assignment of the result of [cmd.Wait] is
    taken to be the later one, as [Wait] returns after the kill. *)
Definition callExternalCommand : M unit :=
  log InfoLevel "calling external command"
      [("command", ExecCommand c); ("timeout", Duration_String env (Timeout c))] ;;
  let args := [CertificateFile env c; PrivateKeyFile env c; CAFile env c] in
  n <- turn ;;
  emit (EvStart (ExecCommand c) args) ;;
  emit (EvAfterFunc (Timeout c)) ;;
  err <- match hook_run env n (ExecCommand c) args (Timeout c) with
         | StartFailed _ true =>
             (* cmd.Process is nil when the armed function calls Kill on it *)
             emit EvKill ;;
             panic "runtime error: invalid memory address or nil pointer dereference"
         | StartFailed _ false =>
             emit EvWait ;; ret (Some "exec: not started")
         | Started kill wait_err =>
             match kill with
             | Some (Some _) =>
                 emit EvKill ;;
                 log ErrorLevel "external command took too long, operation timed out" []
             | Some None => emit EvKill
             | None => ret tt
             end ;;
             emit EvWait ;; ret wait_err
         end ;;
  emit EvTimerStop ;;
  match err with
  | Some e =>
      log ErrorLevel "error calling external command"
          [("command", ExecCommand c); ("error", e)]
  | None => ret tt
  end.

(** The method [handleCertificateResponse] of the controller. *)
Definition handleCertificateResponse (response : SigningResponse) : M (option error) :=
  if negb (Success response) then
    match Errors response with
    | first :: _ => ret (Some ("unsuccessful operation, errors: " +:+ Message first))
    | [] => panic "runtime error: index out of range"
    end
  else if String.eqb (Certificate (Result response)) "" then
    ret (Some "no certificate found in the response")
  else
    log InfoLevel "writing the certificate to disk" [("path", CertificateFile env c)] ;;
    let content :=
      if negb (String.eqb (BundleText (ResultBundle (Result response))) "")
      then BundleText (ResultBundle (Result response))
      else Certificate (Result response) in
    opened <- os_OpenFile env (CertificateFile env c)
                (Z.lor (Z.lor O_CREATE O_TRUNC) O_RDWR) FileMode_0600 ;;
    match opened with
    | Bad err => ret (Some err)
    | Good file =>
        defer (file_Close file)
          (werr <- file_WriteString env file content ;;
           match werr with
           | Some err => ret (Some err)
           | None =>
               (if negb (String.eqb (ExecCommand c) "")
                then callExternalCommand
                else ret tt) ;;
               ret None
           end)
    end.

(** The first block of [doSigningRequest], lines 196-208: the [switch] on
    [auth] that chooses the address and the envelope of the request. *)
Definition signing_target (request : SigningRequest) : string * Payload :=
  let auth := negb (String.eqb (EndpointToken c) "") in
  match auth with
  | false => (EndpointURL c +:+ "/api/v1/cfssl/sign", PlainBody request)
  | _ => (EndpointURL c +:+ "/api/v1/cfssl/authsign",
          AuthBody (mkAuthSigningRequest (EndpointToken c) request))
  end.

(** The method [doSigningRequest] of the controller. *)
Definition doSigningRequest (request : SigningRequest) : M (result SigningResponse) :=
  let '(url, body) := signing_target request in
  match json_Marshal env body with
  | Bad err => ret (Bad err)
  | Good encoded =>
      match http_NewRequest env "POST" url encoded with
      | Some err => ret (Bad err)
      | None =>
          n <- turn ;;
          emit (EvHTTP "POST" url encoded) ;;
          match client_Do env n url encoded with
          | Bad err => ret (Bad err)
          | Good resp =>
              match Body resp with
              | Bad err => ret (Bad err)
              | Good content =>
                  match json_Unmarshal env content with
                  | Bad err => ret (Bad err)
                  | Good response => ret (Good response)
                  end
              end
          end
      end
  end.

(** One turn of the [for] loop of [run]; [continue] is the early end of the
    turn. *)
Definition run_turn (encoded : string) : M unit :=
  log InfoLevel "attempting to acquire certificate from ca"
      [("domains", String.concat "," (Domains c));
       ("endpoint", EndpointURL c);
       ("expiry", Duration_String env (Expiry c));
       ("profile", EndpointProfile c)] ;;
  signed <- doSigningRequest (mkSigningRequest encoded (EndpointProfile c) true) ;;
  match signed with
  | Bad err =>
      log ErrorLevel "failed to retrieve certificate signing" [("error", err)] ;;
      time_Sleep (5 * Second)
  | Good response =>
      herr <- handleCertificateResponse response ;;
      match herr with
      | Some err =>
          log ErrorLevel "failed to proccess certificate response" [("error", err)] ;;
          time_Sleep (5 * Second)
      | None =>
          log InfoLevel "successfully wrote the tls certificates"
              [("certificate", CertificateFile env c);
               ("private_key", PrivateKeyFile env c)] ;;
          send_done true ;;
          (if Onetime c
           then log InfoLevel "onetime mode enabled, exiting the service" [] ;;
                os_Exit 0
           else ret tt) ;;
          log InfoLevel "going to sleep until next certificate rotation"
              [("duration", Duration_String env (Expiry c))] ;;
          time_Sleep (Expiry c)
      end
  end.

Definition next_turn : M unit :=
  fun w => (Val tt, set_attempt (S (attempt w)) w).

(** The [for] loop, unrolled at most [fuel] times. *)
Fixpoint run_loop (fuel : nat) (encoded : string) : M (option error) :=
  match fuel with
  | O => fun w => (Running, w)
  | S fuel' => run_turn encoded ;; next_turn ;; run_loop fuel' encoded
  end.

(** The method [run] of the controller. *)
Definition run (fuel : nat) : M (option error) :=
  emit (EvMkdirAll (CertsDir c) FileMode_0770) ;;
  match os_MkdirAll env (CertsDir c) FileMode_0770 with
  | Some err => ret (Some ("failed to ensure certficate directory: " +:+ err))
  | None =>
      emit EvCreateCSR ;;
      match createCertificateRequest env c with
      | Bad err => ret (Some ("failed to generate csr: " +:+ err))
      | Good (_, csr) =>
          emit EvEncodeCSR ;;
          match encodeCertificateRequest env csr with
          | Bad err => ret (Some ("failed to encode csr: " +:+ err))
          | Good encoded =>
              makeOperationTimeout (Timeout c) ;;
              run_loop fuel encoded
          end
      end
  end.

End Controller.

(** ** Auxiliary notions used by the statements *)

(** The two calls of one turn of the loop, with the error either of them
    reports: what the loop tests before it decides to back off. *)
Definition acquire (env : Env) (c : Config) (encoded : string) : M (option error) :=
  signed <- doSigningRequest env c (mkSigningRequest encoded (EndpointProfile c) true) ;;
  match signed with
  | Bad err => ret (Some err)
  | Good response => handleCertificateResponse env c response
  end.

(** A world in which nothing has happened yet but the [i] first turns. *)
Definition probe (i : nat) : World := mkWorld ∅ [] [] i.

(** Turn [i] of the loop is a failed attempt: the signing exchange or the
    handling of the response returns an error. *)
Definition attempt_fails (env : Env) (c : Config) (encoded : string) (i : nat) : bool :=
  match fst (acquire env c encoded (probe i)) with
  | Val (Some _) => true
  | _ => false
  end.

(** Turn [i] of the loop is a successful acquisition. *)
Definition attempt_succeeds (env : Env) (c : Config) (encoded : string) (i : nat) : bool :=
  match fst (acquire env c encoded (probe i)) with
  | Val None => true
  | _ => false
  end.

Definition is_sleep (e : Event) : bool :=
  match e with EvSleep _ => true | _ => false end.

Definition is_exit (e : Event) : bool :=
  match e with EvExit _ => true | _ => false end.

Definition is_http (e : Event) : bool :=
  match e with EvHTTP _ _ _ => true | _ => false end.

Definition is_file_op (e : Event) : bool :=
  match e with
  | EvOpenFile _ _ _ | EvWriteString _ _ | EvClose _ => true
  | _ => false
  end.

Definition is_csr_step (e : Event) : bool :=
  match e with EvCreateCSR | EvEncodeCSR => true | _ => false end.

(** The text the handler persists for a response. *)
Definition persisted_text (response : SigningResponse) : string :=
  if String.eqb (BundleText (ResultBundle (Result response))) ""
  then Certificate (Result response)
  else BundleText (ResultBundle (Result response)).

(** The flags of the one [os.OpenFile] call of the controller. *)
Definition cert_open_flags : Z := Z.lor (Z.lor O_CREATE O_TRUNC) O_RDWR.

(** The file a successful open with the flags of the controller leaves. *)
Definition opened_file (env : Env) (w : World) (name : string) (perm : Z) : File :=
  match fs w !! name with
  | Some f => mkFile (mode f) ""
  | None => mkFile (Z.land perm (Z.lnot (umask env))) ""
  end.

Definition is_start (e : Event) : bool :=
  match e with EvStart _ _ => true | _ => false end.

(** The actions of an acquisition: no sleep, no exit, no CSR construction. *)
Definition calm (e : Event) : bool :=
  negb (is_sleep e || is_exit e || is_csr_step e).

(** The actions of the handler: moreover, no HTTP exchange. *)
Definition local (e : Event) : bool :=
  negb (is_sleep e || is_exit e || is_csr_step e || is_http e).


(** [tame P m]: what [m] returns and the actions it adds to the trace are
    determined by the number of the turn it runs in; the actions all satisfy
    [P]; and [m] does not move the turn counter. *)
Definition tame {A} (P : Event -> bool) (m : M A) : Prop :=
  forall w, exists delta,
    trace (snd (m w)) = trace w ++ delta /\
    forallb P delta = true /\
    attempt (snd (m w)) = attempt w /\
    forall w2, attempt w2 = attempt w ->
      fst (m w2) = fst (m w) /\ trace (snd (m w2)) = trace w2 ++ delta.

(** The log lines and traces of the controller, named. *)
Section Vocabulary.

Variable env : Env.
Variable c : Config.

Definition writing_log : Event :=
  EvLog InfoLevel "writing the certificate to disk" [("path", CertificateFile env c)].

Definition hook_error_log (e : error) : Event :=
  EvLog ErrorLevel "error calling external command"
        [("command", ExecCommand c); ("error", e)].

(** The actions of one call of the reload hook, by the way it runs. *)
Definition hook_trace (h : HookRun) : list Event :=
  [EvLog InfoLevel "calling external command"
         [("command", ExecCommand c); ("timeout", Duration_String env (Timeout c))];
   EvStart (ExecCommand c) [CertificateFile env c; PrivateKeyFile env c; CAFile env c];
   EvAfterFunc (Timeout c)] ++
  match h with
  | StartFailed _ true => [EvKill]
  | StartFailed _ false =>
      [EvWait; EvTimerStop; hook_error_log "exec: not started"]
  | Started kill wait_err =>
      match kill with
      | Some (Some _) =>
          [EvKill;
           EvLog ErrorLevel "external command took too long, operation timed out" []]
      | Some None => [EvKill]
      | None => []
      end ++
      [EvWait; EvTimerStop] ++
      match wait_err with
      | Some e => [hook_error_log e]
      | None => []
      end
  end.

(** The one way in which a call of the reload hook aborts the process. *)
Definition hook_crashes (h : HookRun) : bool :=
  match h with StartFailed _ true => true | _ => false end.

(** The world once the certificate file is opened and [text] is in it. *)
Definition written (w : World) (text : string) (events : list Event) : World :=
  mkWorld (<[CertificateFile env c :=
               mkFile (mode (opened_file env w (CertificateFile env c) FileMode_0600)) text]>
             (fs w))
          (fds w)
          (trace w ++ events)
          (attempt w).

Definition attempt_log : Event :=
  EvLog InfoLevel "attempting to acquire certificate from ca"
        [("domains", String.concat "," (Domains c));
         ("endpoint", EndpointURL c);
         ("expiry", Duration_String env (Expiry c));
         ("profile", EndpointProfile c)].

Definition success_log : Event :=
  EvLog InfoLevel "successfully wrote the tls certificates"
        [("certificate", CertificateFile env c);
         ("private_key", PrivateKeyFile env c)].

Definition onetime_log : Event :=
  EvLog InfoLevel "onetime mode enabled, exiting the service" [].

Definition rotation_log : Event :=
  EvLog InfoLevel "going to sleep until next certificate rotation"
        [("duration", Duration_String env (Expiry c))].

(** The world in which the acquisition of a turn starts. *)
Definition announced (w : World) : World :=
  set_trace (trace w ++ [attempt_log]) w.

(** The actions of one signing exchange for [request]. *)
Definition request_events (request : SigningRequest) : list Event :=
  trace (snd (doSigningRequest env c request (probe 0))).


End Vocabulary.

(** ** Concrete environments and inputs *)

Module Demo.

Definition day : Duration := 24 * 3600 * Second.

(** The defaults of [main.go], for one domain, without token or reload
    command. *)
Definition config : Config :=
  mkConfig "/certs" "GB" ["app.example.org"] "server" "" "https://ca.kube-tls.svc.cluster.local"
           "" (90 * day) "London" false "ACP Homeoffice" "London" 2048 (60 * Second)
           "" "tls-ca.pem" "tls.pem" "tls-key.pem" false.

Definition with_command (command : string) (c : Config) : Config :=
  mkConfig (CertsDir c) (Country c) (Domains c) (EndpointProfile c) (EndpointToken c)
           (EndpointURL c) command (Expiry c) (Locality c) (Onetime c) (Organization c)
           (Province c) (Size c) (Timeout c) (TLSCAPath c) (TLSCAFilename c)
           (TLSCertificateFilename c) (TLSPrivateKeyFilename c) (Verbose c).

Definition with_onetime (c : Config) : Config :=
  mkConfig (CertsDir c) (Country c) (Domains c) (EndpointProfile c) (EndpointToken c)
           (EndpointURL c) (ExecCommand c) (Expiry c) (Locality c) true (Organization c)
           (Province c) (Size c) (Timeout c) (TLSCAPath c) (TLSCAFilename c)
           (TLSCertificateFilename c) (TLSPrivateKeyFilename c) (Verbose c).

Definition hook_config : Config := with_command "/usr/local/bin/reload" config.

Definition in_dir (name : Config -> string) (c : Config) : string :=
  CertsDir c +:+ "/" +:+ name c.

(** A response with a leaf certificate and a bundle. *)
Definition signed : SigningResponse :=
  mkSigningResponse true (mkSigningResult "LEAF" (mkBundleResult "LEAF+CHAIN")) [].

(** A response with a leaf certificate only. *)
Definition signed_leaf : SigningResponse :=
  mkSigningResponse true (mkSigningResult "LEAF" (mkBundleResult "")) [].

(** A refusal that names its reason. *)
Definition refused : SigningResponse :=
  mkSigningResponse false (mkSigningResult "" (mkBundleResult ""))
                    [mkResponseMessage 5100 "invalid policy"; mkResponseMessage 1 "other"].

(** What the body [{"success":false}] decodes to. *)
Definition refused_silently : SigningResponse :=
  mkSigningResponse false (mkSigningResult "" (mkBundleResult "")) [].

(** An environment given by the answers of the network, of the file system
    and of the reload hook; the libraries and helpers never fail. *)
Definition make_env
    (net : nat -> result HTTPResponse)
    (decoded : SigningResponse)
    (opens : nat -> option error)
    (writes : nat -> option (nat * error))
    (hook : nat -> HookRun) : Env :=
  mkEnv (in_dir TLSCertificateFilename) (in_dir TLSPrivateKeyFilename) (in_dir TLSCAFilename)
        (fun _ => Good ("KEY", "CSR"))
        (fun csr => Good ("PEM " +:+ csr))
        (fun _ => "1m0s")
        (fun _ => Good "{...}")
        (fun _ => Good decoded)
        (fun _ _ _ => None)
        18
        (fun _ _ => None)
        (fun n _ => opens n)
        (fun n _ _ => writes n)
        (fun n _ _ => net n)
        (fun n _ _ _ => hook n).

Definition answered : result HTTPResponse := Good (mkHTTPResponse 200 (Good "{...}")).

(** Everything works. *)
Definition fine (decoded : SigningResponse) : Env :=
  make_env (fun _ => answered) decoded (fun _ => None) (fun _ => None)
           (fun _ => Started None None).


(** The endpoint is unreachable twice, then answers. *)
Definition third_time_lucky : Env :=
  make_env (fun n => if (n <? 2)%nat then Bad "connection refused" else answered)
           signed (fun _ => None) (fun _ => None) (fun _ => Started None None).

(** The disk is full after three bytes of the first write. *)
Definition disk_full : Env :=
  make_env (fun _ => answered) signed (fun _ => None)
           (fun n => match n with O => Some (3%nat, "no space left on device") | _ => None end)
           (fun _ => Started None None).

(** The reload hook runs in the way [h]. *)
Definition hooked (h : HookRun) : Env :=
  make_env (fun _ => answered) signed (fun _ => None) (fun _ => None) (fun _ => h).

(** A world in which an earlier certificate is on disk. *)
Definition renewed : World :=
  mkWorld {[ "/certs/tls.pem" := mkFile FileMode_0600 "OLD CERTIFICATE" ]} [] [] 0.

End Demo.

(** ** main.go and the constructor of the controller *)

(** The state of the standard logger of logrus that [newController] sets. *)
Module Logrus.

Inductive Level : Type :=
| PanicLevel | FatalLevel | ErrorLevel | WarnLevel | InfoLevel | DebugLevel.

Inductive Formatter : Type := TextFormatter | JSONFormatter.

Record Logger : Type := mkLogger {
  level : Level;
  formatter : Formatter
}.

Definition SetLevel (l : Level) (lg : Logger) : Logger := mkLogger l (formatter lg).
Definition SetFormatter (f : Formatter) (lg : Logger) : Logger := mkLogger (level lg) f.

End Logrus.

(** An [*http.Client], as an opaque handle. *)
Inductive Client : Type := HTTPClient (id : nat).

(** What [main.go] and [newController] call but the two source files do not
    define: [os.ExpandEnv], and the helpers [Config.IsValid] and
    [createHTTPClient] of the repository. *)
Record Startup : Type := mkStartup {
  os_ExpandEnv : string -> string;
  IsValid : Config -> option error;
  createHTTPClient : Config -> result Client
}.

(** The values the command line gives for the flags of [main.go], by flag
    name ([c.String "certs"], [c.StringSlice "domain"], ...). *)
Record Flags : Type := mkFlags {
  flag_token : string;
  flag_url : string;
  flag_profile : string;
  flag_tls_ca : string;
  flag_domain : list string;
  flag_size : Z;
  flag_expiry : Duration;
  flag_certs : string;
  flag_command : string;
  flag_organization : string;
  flag_country : string;
  flag_locality : string;
  flag_province : string;
  flag_onetime : bool;
  flag_tls_ca_name : string;
  flag_tls_cert_name : string;
  flag_tls_key_name : string;
  flag_timeout : Duration;
  flag_verbose : bool
}.

(** [type controller struct]. *)
Record controller : Type := mkController {
  config : Config;
  client : Client
}.

(** [newController]: validation, then the logger, then the HTTP client. *)
Definition newController (s : Startup) (c : Config) (lg : Logrus.Logger)
  : result controller * Logrus.Logger :=
  match IsValid s c with
  | Some err => (Bad err, lg)
  | None =>
      let lg1 := if Verbose c then Logrus.SetLevel Logrus.DebugLevel lg else lg in
      let lg2 := Logrus.SetFormatter Logrus.JSONFormatter lg1 in
      match createHTTPClient s c with
      | Bad err => (Bad err, lg2)
      | Good cl => (Good (mkController c cl), lg2)
      end
  end.

(** The loop of the [Action] over the values of the flag [domain]:
    [domains = append(domains, os.ExpandEnv(x))]. *)
Definition expand_domains (s : Startup) (values : list string) : list string :=
  fold_left (fun domains x => domains ++ [os_ExpandEnv s x]) values [].

(** The composite literal of the [Action], lines 153-173. *)
Definition config_of_flags (s : Startup) (ctx : Flags) : Config :=
  {| CertsDir := flag_certs ctx;
     Country := flag_country ctx;
     Domains := expand_domains s (flag_domain ctx);
     EndpointProfile := flag_profile ctx;
     EndpointToken := flag_token ctx;
     EndpointURL := flag_url ctx;
     ExecCommand := flag_command ctx;
     Expiry := flag_expiry ctx;
     Locality := flag_locality ctx;
     Onetime := flag_onetime ctx;
     Organization := flag_organization ctx;
     Province := flag_province ctx;
     Size := flag_size ctx;
     Timeout := flag_timeout ctx;
     TLSCAPath := flag_tls_ca ctx;
     TLSCAFilename := flag_tls_ca_name ctx;
     TLSCertificateFilename := flag_tls_cert_name ctx;
     TLSPrivateKeyFilename := flag_tls_key_name ctx;
     Verbose := flag_verbose ctx |}.

(** The process as [main.go] sees it: the world of the controller, the
    logger, and the lines written to the standard error. *)
Record Process : Type := mkProcess {
  world : World;
  logger : Logrus.Logger;
  stderr : list string
}.



(** ** Further notions used by the statements *)

Definition is_send (e : Event) : bool :=
  match e with EvSend _ => true | _ => false end.

Definition is_timer_event (e : Event) : bool :=
  match e with EvAfterFunc _ | EvTimerStop => true | _ => false end.

Definition is_child_event (e : Event) : bool :=
  match e with EvStart _ _ | EvKill | EvWait => true | _ => false end.

(** The kinds of action an acquisition is made of. *)
Definition inner (e : Event) : bool :=
  match e with
  | EvLog _ _ _ | EvHTTP _ _ _ | EvOpenFile _ _ _ | EvWriteString _ _ | EvClose _
  | EvStart _ _ | EvAfterFunc _ | EvKill | EvWait | EvTimerStop => true
  | _ => false
  end.


Definition index_panic : string := "runtime error: index out of range".
Definition nil_panic : string :=
  "runtime error: invalid memory address or nil pointer dereference".

Definition timeout_log : Event :=
  EvLog ErrorLevel "external command took too long, operation timed out" [].

(** More environments and inputs. *)
Module Scenario.

(** The environment [env] with another answer of [os.MkdirAll]. *)
Definition with_mkdir (answer : option error) (env : Env) : Env :=
  mkEnv (CertificateFile env) (PrivateKeyFile env) (CAFile env)
        (createCertificateRequest env) (encodeCertificateRequest env)
        (Duration_String env) (json_Marshal env) (json_Unmarshal env)
        (http_NewRequest env) (umask env) (fun _ _ => answer)
        (open_fault env) (write_fault env) (client_Do env) (hook_run env).

(** The environment [env] with another decoder of response bodies. *)
Definition with_decoder (decode : string -> result SigningResponse) (env : Env) : Env :=
  mkEnv (CertificateFile env) (PrivateKeyFile env) (CAFile env)
        (createCertificateRequest env) (encodeCertificateRequest env)
        (Duration_String env) (json_Marshal env) decode
        (http_NewRequest env) (umask env) (os_MkdirAll env)
        (open_fault env) (write_fault env) (client_Do env) (hook_run env).

(** The directory of the certificates cannot be created. *)
Definition no_directory : Env :=
  with_mkdir (Some "mkdir /certs: permission denied") (Demo.fine Demo.signed).

(** The authority refuses without a reason. *)
Definition silent_refusal : Env := Demo.fine Demo.refused_silently.


(** An answer with the status 500 and a decodable body. *)
Definition server_error : Env :=
  Demo.make_env (fun _ => Good (mkHTTPResponse 500 (Good "{...}"))) Demo.signed
                (fun _ => None) (fun _ => None) (fun _ => Started None None).

(** A successful response that also carries error entries. *)
Definition signed_with_notes : SigningResponse :=
  mkSigningResponse true (Result Demo.signed) [mkResponseMessage 7 "deprecated profile"].

(** The defaults of [main.go] for one domain given with a placeholder. *)
Definition flags : Flags :=
  mkFlags "" "https://ca.kube-tls.svc.cluster.local" "" "" ["app.${NS}.svc"; "app"] 2048
          (90 * Demo.day) "/certs" "" "ACP Homeoffice" "GB" "London" "London" false
          "tls-ca.pem" "tls.pem" "tls-key.pem" (60 * Second) false.

Definition onetime_flags : Flags :=
  mkFlags "" "https://ca.kube-tls.svc.cluster.local" "" "" ["app"] 2048
          (90 * Demo.day) "/certs" "" "ACP Homeoffice" "GB" "London" "London" true
          "tls-ca.pem" "tls.pem" "tls-key.pem" (60 * Second) true.

(** Placeholders are replaced by a fixed text; a configuration is valid when
    it names a domain; the HTTP client can be built. *)
Definition startup : Startup :=
  mkStartup (fun x => if String.eqb x "app.${NS}.svc" then "app.prod.svc" else x)
            (fun c => match Domains c with
                      | [] => Some "no domains specified"
                      | _ => None
                      end)
            (fun _ => Good (HTTPClient 1)).

(** The same, but the CA file of the client cannot be read. *)
Definition startup_without_client : Startup :=
  mkStartup (os_ExpandEnv startup) (IsValid startup)
            (fun _ => Bad "open /ca.pem: no such file or directory").

Definition no_domain_flags : Flags :=
  mkFlags "" "https://ca.kube-tls.svc.cluster.local" "" "" [] 2048
          (90 * Demo.day) "/certs" "" "ACP Homeoffice" "GB" "London" "London" false
          "tls-ca.pem" "tls.pem" "tls-key.pem" (60 * Second) true.

Definition fresh : Process :=
  mkProcess (probe 0) (Logrus.mkLogger Logrus.InfoLevel Logrus.TextFormatter) [].

End Scenario.

(** ** Notions used by the further properties *)

(** The handler goes as far as the reload hook: the response is accepted,
    the certificate file is opened and written, and a command is
    configured. *)
Definition reaches_hook (env : Env) (c : Config) (response : SigningResponse) (w : World)
  : Prop :=
  Success response = true /\
  Certificate (Result response) <> "" /\
  open_fault env (attempt w) (CertificateFile env c) = None /\
  write_fault env (attempt w) (CertificateFile env c) (persisted_text response) = None /\
  ExecCommand c <> "".

(** The two ways in which the controller can panic: a decoded response that
    reports a failure without any error entry, and a reload command that
    fails to start while its deadline function still runs. *)
Definition panic_cause (env : Env) (c : Config) (msg : string) : Prop :=
  (msg = index_panic /\
   exists content response,
     json_Unmarshal env content = Good response /\
     Success response = false /\ Errors response = [])
  \/
  (msg = nil_panic /\ ExecCommand c <> "" /\
   exists i start_err,
     hook_run env i (ExecCommand c)
              [CertificateFile env c; PrivateKeyFile env c; CAFile env c] (Timeout c)
       = StartFailed start_err true).

(** * Facts about the model *)

(** ** Basic facts about the operating-system model *)

Lemma string_drop_empty (n : nat) : string_drop n "" = "".
Proof. unfold string_drop. destruct n; reflexivity. Qed.

Lemma append_empty_r (s : string) : s +:+ "" = s.
Proof.
  induction s as [|a s IH]; [reflexivity |].
  change (String a (s +:+ "") = String a s). now rewrite IH.
Qed.

Lemma overwrite_empty (s : string) : overwrite "" s = s.
Proof. unfold overwrite. rewrite string_drop_empty. apply append_empty_r. Qed.

Lemma eqb_empty_false (s : string) : s <> "" -> String.eqb s "" = false.
Proof. intros H. apply String.eqb_neq. exact H. Qed.

Lemma remove_fd_head (name : string) (l : list string) :
  remove_fd name (name :: l) = l.
Proof. simpl. now rewrite String.eqb_refl. Qed.

Lemma cert_open_flags_create : has_flag cert_open_flags O_CREATE = true.
Proof. reflexivity. Qed.

Lemma cert_open_flags_trunc : has_flag cert_open_flags O_TRUNC = true.
Proof. reflexivity. Qed.

Lemma opened_file_data env w name perm : data (opened_file env w name perm) = "".
Proof. unfold opened_file. now destruct (fs w !! name). Qed.

Lemma os_OpenFile_fault env name flag perm w err :
  open_fault env (attempt w) name = Some err ->
  os_OpenFile env name flag perm w =
    (Val (Bad err), set_trace (trace w ++ [EvOpenFile name flag perm]) w).
Proof. intros H. unfold os_OpenFile. now rewrite H. Qed.

Lemma os_OpenFile_ok env name perm w :
  open_fault env (attempt w) name = None ->
  os_OpenFile env name cert_open_flags perm w =
    (Val (Good name),
     mkWorld (<[name := opened_file env w name perm]> (fs w))
             (name :: fds w)
             (trace w ++ [EvOpenFile name cert_open_flags perm])
             (attempt w)).
Proof.
  intros H. unfold os_OpenFile, opened_file. rewrite H.
  rewrite cert_open_flags_create, cert_open_flags_trunc.
  destruct (fs w !! name); reflexivity.
Qed.

(** Writing through a descriptor whose file is empty. *)
Lemma file_WriteString_fresh env file s w f :
  fs w !! file = Some f -> data f = "" ->
  file_WriteString env file s w =
    match write_fault env (attempt w) file s with
    | Some (n, err) =>
        (Val (Some err),
         mkWorld (<[file := mkFile (mode f) (string_take n s)]> (fs w)) (fds w)
                 (trace w ++ [EvWriteString file s]) (attempt w))
    | None =>
        (Val None,
         mkWorld (<[file := mkFile (mode f) s]> (fs w)) (fds w)
                 (trace w ++ [EvWriteString file s]) (attempt w))
    end.
Proof.
  intros Hf Hd. unfold file_WriteString. rewrite Hf, Hd.
  destruct (write_fault env (attempt w) file s) as [[n err]|];
    rewrite overwrite_empty; reflexivity.
Qed.

(** ** The behaviour of the handler, case by case *)

(** Closes a goal equating two descriptions of the same result and world. *)
Ltac same_world :=
  rewrite ?String.eqb_refl, ?insert_insert_eq;
  unfold opened_file; simpl;
  repeat rewrite <- app_assoc; reflexivity.

Section HandlerFacts.

Variable env : Env.
Variable c : Config.

Let path : string := CertificateFile env c.
Let hook_args : list string := [CertificateFile env c; PrivateKeyFile env c; CAFile env c].

Lemma callExternalCommand_run (w : World) :
  let h := hook_run env (attempt w) (ExecCommand c) hook_args (Timeout c) in
  callExternalCommand env c w =
    ((if hook_crashes h
      then Panic "runtime error: invalid memory address or nil pointer dereference"
      else Val tt),
     set_trace (trace w ++ hook_trace env c h) w).
Proof.
  unfold callExternalCommand, hook_trace, hook_crashes, hook_args, hook_error_log.
  unfold bind, log, emit, turn, ret, panic, set_trace. simpl.
  destruct (hook_run env (attempt w) (ExecCommand c) _ (Timeout c))
    as [serr [|] | [[kerr|]|] [werr|]]; simpl;
    repeat rewrite <- app_assoc; reflexivity.
Qed.

Lemma handle_unsuccessful (response : SigningResponse) (w : World) first rest :
  Success response = false ->
  Errors response = first :: rest ->
  handleCertificateResponse env c response w =
    (Val (Some ("unsuccessful operation, errors: " +:+ Message first)), w).
Proof.
  intros Hs He. unfold handleCertificateResponse. now rewrite Hs, He.
Qed.

Lemma handle_unsuccessful_empty (response : SigningResponse) (w : World) :
  Success response = false ->
  Errors response = [] ->
  handleCertificateResponse env c response w =
    (Panic "runtime error: index out of range", w).
Proof.
  intros Hs He. unfold handleCertificateResponse. now rewrite Hs, He.
Qed.

Lemma handle_no_certificate (response : SigningResponse) (w : World) :
  Success response = true ->
  Certificate (Result response) = "" ->
  handleCertificateResponse env c response w =
    (Val (Some "no certificate found in the response"), w).
Proof.
  intros Hs Hc. unfold handleCertificateResponse. now rewrite Hs, Hc.
Qed.

Lemma persisted_text_eq (response : SigningResponse) :
  (if negb (String.eqb (BundleText (ResultBundle (Result response))) "")
   then BundleText (ResultBundle (Result response))
   else Certificate (Result response)) = persisted_text response.
Proof.
  unfold persisted_text.
  now destruct (String.eqb (BundleText (ResultBundle (Result response))) "").
Qed.

Lemma handle_open_fault (response : SigningResponse) (w : World) err :
  Success response = true ->
  Certificate (Result response) <> "" ->
  open_fault env (attempt w) path = Some err ->
  handleCertificateResponse env c response w =
    (Val (Some err),
     set_trace (trace w ++ [writing_log env c; EvOpenFile path cert_open_flags FileMode_0600]) w).
Proof.
  intros Hs Hc Ho. unfold handleCertificateResponse.
  rewrite Hs, (eqb_empty_false _ Hc). simpl.
  unfold bind at 1. unfold log, emit. unfold bind.
  fold cert_open_flags.
  rewrite (os_OpenFile_fault env path cert_open_flags FileMode_0600 _ err) by exact Ho.
  unfold ret, set_trace, writing_log, path. simpl.
  now rewrite <- app_assoc.
Qed.

Lemma handle_write_fault (response : SigningResponse) (w : World) n err :
  Success response = true ->
  Certificate (Result response) <> "" ->
  open_fault env (attempt w) path = None ->
  write_fault env (attempt w) path (persisted_text response) = Some (n, err) ->
  handleCertificateResponse env c response w =
    (Val (Some err),
     written env c w (string_take n (persisted_text response))
       [writing_log env c; EvOpenFile path cert_open_flags FileMode_0600;
        EvWriteString path (persisted_text response); EvClose path]).
Proof.
  intros Hs Hc Ho Hw. unfold handleCertificateResponse.
  rewrite Hs, (eqb_empty_false _ Hc), persisted_text_eq. simpl.
  unfold bind at 1. unfold log, emit. unfold bind at 1.
  fold cert_open_flags. rewrite os_OpenFile_ok by exact Ho.
  unfold defer, bind.
  erewrite file_WriteString_fresh;
    [ | simpl; apply lookup_insert_eq | apply opened_file_data ].
  simpl. fold path. rewrite Hw. unfold ret, file_Close, written, set_fds, set_trace. simpl.
  same_world.
Qed.

Lemma handle_written (response : SigningResponse) (w : World) :
  Success response = true ->
  Certificate (Result response) <> "" ->
  open_fault env (attempt w) path = None ->
  write_fault env (attempt w) path (persisted_text response) = None ->
  ExecCommand c = "" ->
  handleCertificateResponse env c response w =
    (Val None,
     written env c w (persisted_text response)
       [writing_log env c; EvOpenFile path cert_open_flags FileMode_0600;
        EvWriteString path (persisted_text response); EvClose path]).
Proof.
  intros Hs Hc Ho Hw Hx. unfold handleCertificateResponse.
  rewrite Hs, (eqb_empty_false _ Hc), persisted_text_eq, Hx. simpl.
  unfold bind at 1. unfold log, emit. unfold bind at 1.
  fold cert_open_flags. rewrite os_OpenFile_ok by exact Ho.
  unfold defer, bind.
  erewrite file_WriteString_fresh;
    [ | simpl; apply lookup_insert_eq | apply opened_file_data ].
  simpl. fold path. rewrite Hw. unfold ret, file_Close, written, set_fds, set_trace. simpl.
  same_world.
Qed.

(** With a reload command: the process aborts when the armed function runs
    on a command that never started; otherwise the handler returns nil. *)
Lemma handle_hook (response : SigningResponse) (w : World) :
  Success response = true ->
  Certificate (Result response) <> "" ->
  open_fault env (attempt w) path = None ->
  write_fault env (attempt w) path (persisted_text response) = None ->
  ExecCommand c <> "" ->
  let h := hook_run env (attempt w) (ExecCommand c) hook_args (Timeout c) in
  handleCertificateResponse env c response w =
    if hook_crashes h
    then (Panic "runtime error: invalid memory address or nil pointer dereference",
          mkWorld (<[path := mkFile (mode (opened_file env w path FileMode_0600))
                                    (persisted_text response)]> (fs w))
                  (path :: fds w)
                  (trace w ++ [writing_log env c; EvOpenFile path cert_open_flags FileMode_0600;
                               EvWriteString path (persisted_text response)] ++ hook_trace env c h)
                  (attempt w))
    else (Val None,
          written env c w (persisted_text response)
            ([writing_log env c; EvOpenFile path cert_open_flags FileMode_0600;
              EvWriteString path (persisted_text response)] ++ hook_trace env c h ++ [EvClose path])).
Proof.
  intros Hs Hc Ho Hw Hx h. unfold handleCertificateResponse.
  rewrite Hs, (eqb_empty_false _ Hc), persisted_text_eq, (eqb_empty_false _ Hx). simpl.
  unfold bind at 1. unfold log, emit. unfold bind at 1.
  fold cert_open_flags. rewrite os_OpenFile_ok by exact Ho.
  unfold defer. unfold bind at 1.
  erewrite file_WriteString_fresh;
    [ | simpl; apply lookup_insert_eq | apply opened_file_data ].
  simpl. fold path. rewrite Hw. unfold bind at 1.
  rewrite callExternalCommand_run. simpl. fold hook_args. fold h.
  destruct (hook_crashes h); simpl.
  - unfold set_trace; simpl. same_world.
  - unfold ret, file_Close, written, set_fds, set_trace. simpl. same_world.
Qed.

Lemma trace_grows (w : World) (e : Event) (l : list Event) (fs' : gmap string File)
    (fds' : list string) (n : nat) :
  w <> mkWorld fs' fds' (trace w ++ e :: l) n.
Proof.
  intros H. apply (f_equal trace) in H. simpl in H.
  rewrite <- (app_nil_r (trace w)) in H at 1.
  apply app_inv_head in H. discriminate.
Qed.

(** Apart from the response without error entry, the handler returns an
    error with the world untouched (nothing logged, nothing opened) exactly
    for the responses it rejects: success flag false, or empty certificate. *)
Lemma handle_rejects_before_persisting (response : SigningResponse) (w : World) :
  (Success response = false -> Errors response <> []) ->
  ((exists err, handleCertificateResponse env c response w = (Val (Some err), w)) <->
   (Success response = false \/ Certificate (Result response) = "")).
Proof.
  intros Hne. split.
  - intros [err H].
    destruct (Success response) eqn:Hs; [| now left].
    destruct (string_dec (Certificate (Result response)) "") as [Hc|Hc]; [now right |].
    exfalso.
    destruct (open_fault env (attempt w) path) as [oerr|] eqn:Ho.
    { rewrite handle_open_fault with (err := oerr) in H by assumption.
      inversion H as [[He Hw]]. symmetry in Hw. revert Hw. apply trace_grows. }
    destruct (write_fault env (attempt w) path (persisted_text response))
      as [[n werr]|] eqn:Hw.
    { rewrite handle_write_fault with (n := n) (err := werr) in H by assumption.
      inversion H as [[He Hw']]. symmetry in Hw'. revert Hw'. apply trace_grows. }
    destruct (string_dec (ExecCommand c) "") as [Hx|Hx].
    { rewrite handle_written in H by assumption. discriminate. }
    rewrite handle_hook in H by assumption.
    destruct (hook_crashes _) in H; discriminate.
  - intros [Hs|Hc].
    + destruct (Errors response) as [|first rest] eqn:He; [now elim (Hne Hs) |].
      eexists. now apply handle_unsuccessful with (first := first) (rest := rest).
    + destruct (Success response) eqn:Hs.
      * eexists. now apply handle_no_certificate.
      * destruct (Errors response) as [|first rest] eqn:He;
          [exfalso; now apply (Hne eq_refl) |].
        eexists. now apply handle_unsuccessful with (first := first) (rest := rest).
Qed.

End HandlerFacts.

(** ** Computations that depend on the world through the turn counter only

    [tame P m]: what [m] returns and the actions it adds to the trace are
    determined by the number of the turn it runs in; the actions all satisfy
    [P]; and [m] does not move the turn counter. *)

Lemma tame_ret {A} P (a : A) : tame P (ret a).
Proof.
  intros w. exists []. simpl. rewrite app_nil_r.
  split; [reflexivity | split; [reflexivity | split; [reflexivity |]]].
  intros w2 _. now rewrite app_nil_r.
Qed.

Lemma tame_panic {A} P msg : tame P (@panic A msg).
Proof.
  intros w. exists []. simpl. rewrite app_nil_r.
  split; [reflexivity | split; [reflexivity | split; [reflexivity |]]].
  intros w2 _. now rewrite app_nil_r.
Qed.

Lemma tame_emit P e : P e = true -> tame P (emit e).
Proof.
  intros H w. exists [e]. simpl. rewrite H.
  split; [reflexivity | split; [reflexivity | split; [reflexivity |]]].
  intros w2 _. now split.
Qed.

Lemma tame_log P lvl msg fields : P (EvLog lvl msg fields) = true -> tame P (log lvl msg fields).
Proof. apply tame_emit. Qed.

Lemma tame_bind {A B} P (m : M A) (k : A -> M B) :
  tame P m -> (forall a, tame P (k a)) -> tame P (bind m k).
Proof.
  intros Hm Hk w.
  destruct (Hm w) as (d1 & Ht & HP & Ha & Hind).
  unfold bind. destruct (m w) as [r w1] eqn:E. simpl in Ht, Ha, Hind.
  assert (Hother : forall w2, attempt w2 = attempt w ->
            exists w3, m w2 = (r, w3) /\ trace w3 = trace w2 ++ d1 /\ attempt w3 = attempt w1).
  { intros w2 H2. destruct (Hind w2 H2) as [Hr Hd].
    destruct (Hm w2) as (d' & _ & _ & Ha2 & _).
    destruct (m w2) as [r2 w3]. simpl in *. subst r2.
    exists w3. repeat split; [assumption | congruence]. }
  destruct r as [a | msg | code | ].
  - destruct (Hk a w1) as (d2 & Ht2 & HP2 & Ha2 & Hind2).
    exists (d1 ++ d2). rewrite forallb_app, HP, HP2, Ht2, Ht, Ha2, Ha, app_assoc.
    split; [reflexivity | split; [reflexivity | split; [reflexivity |]]].
    intros w2 H2.
    destruct (Hother w2 H2) as (w3 & E2 & Ht3 & Ha3). rewrite E2.
    destruct (Hind2 w3 Ha3) as [Hr Hd]. rewrite Hr, Hd, Ht3, app_assoc. now split.
  - exists d1. simpl.
    split; [assumption | split; [assumption | split; [assumption |]]].
    intros w2 H2.
    destruct (Hother w2 H2) as (w3 & E2 & Ht3 & Ha3). rewrite E2. now split.
  - exists d1. simpl.
    split; [assumption | split; [assumption | split; [assumption |]]].
    intros w2 H2.
    destruct (Hother w2 H2) as (w3 & E2 & Ht3 & Ha3). rewrite E2. now split.
  - exists d1. simpl.
    split; [assumption | split; [assumption | split; [assumption |]]].
    intros w2 H2.
    destruct (Hother w2 H2) as (w3 & E2 & Ht3 & Ha3). rewrite E2. now split.
Qed.

Lemma tame_ext {A} P (m m' : M A) :
  (forall w, m w = m' w) -> tame P m' -> tame P m.
Proof.
  intros E Hm w. destruct (Hm w) as (d & Ht & HP & Ha & Hind).
  exists d. rewrite E.
  split; [assumption | split; [assumption | split; [assumption |]]].
  intros w2 H2. rewrite E. now apply Hind.
Qed.

Lemma defer_as_bind {A} (cleanup : M unit) (body : M A) (w : World) :
  defer cleanup body w = bind body (fun a => bind cleanup (fun _ => ret a)) w.
Proof.
  unfold defer, bind, ret. destruct (body w) as [[a| | |] w1]; reflexivity.
Qed.

Lemma tame_defer {A} P (cleanup : M unit) (body : M A) :
  tame P body -> tame P cleanup -> tame P (defer cleanup body).
Proof.
  intros Hb Hc. eapply tame_ext; [apply defer_as_bind |].
  apply tame_bind; [exact Hb | intros a].
  apply tame_bind; [exact Hc | intros _; apply tame_ret].
Qed.

Lemma tame_weaken {A} (P Q : Event -> bool) (m : M A) :
  (forall e, P e = true -> Q e = true) -> tame P m -> tame Q m.
Proof.
  intros HPQ Hm w. destruct (Hm w) as (d & Ht & HP & Ha & Hind).
  exists d.
  split; [assumption | split; [ | split; [assumption | exact Hind]]].
  rewrite forallb_forall in *. intros e He. apply HPQ, HP, He.
Qed.

Lemma tame_turn P : tame P turn.
Proof.
  intros w. exists []. simpl. rewrite app_nil_r.
  split; [reflexivity | split; [reflexivity | split; [reflexivity |]]].
  intros w2 H2. rewrite app_nil_r. now rewrite H2.
Qed.

Lemma tame_OpenFile P env name perm :
  P (EvOpenFile name cert_open_flags perm) = true ->
  tame P (os_OpenFile env name cert_open_flags perm).
Proof.
  intros HP w. exists [EvOpenFile name cert_open_flags perm]. simpl. rewrite HP.
  destruct (open_fault env (attempt w) name) as [err|] eqn:E.
  - rewrite os_OpenFile_fault with (err := err) by exact E. simpl.
    split; [reflexivity | split; [reflexivity | split; [reflexivity |]]].
    intros w2 H2. rewrite <- H2 in E.
    rewrite os_OpenFile_fault with (err := err) by exact E. now split.
  - rewrite os_OpenFile_ok by exact E. simpl.
    split; [reflexivity | split; [reflexivity | split; [reflexivity |]]].
    intros w2 H2. rewrite <- H2 in E.
    rewrite os_OpenFile_ok by exact E. now split.
Qed.

Lemma tame_WriteString P env file s :
  P (EvWriteString file s) = true ->
  tame P (file_WriteString env file s).
Proof.
  intros HP w. exists [EvWriteString file s]. simpl. rewrite HP.
  unfold file_WriteString.
  split; [ | split; [reflexivity | split]].
  - destruct (write_fault env (attempt w) file s) as [[n err]|];
      destruct (fs w !! file); reflexivity.
  - destruct (write_fault env (attempt w) file s) as [[n err]|];
      destruct (fs w !! file); reflexivity.
  - intros w2 H2. rewrite H2.
    destruct (write_fault env (attempt w) file s) as [[n err]|];
      destruct (fs w2 !! file); now split.
Qed.

Lemma tame_Close P file : P (EvClose file) = true -> tame P (file_Close file).
Proof.
  intros HP w. exists [EvClose file]. simpl. rewrite HP.
  split; [reflexivity | split; [reflexivity | split; [reflexivity |]]].
  intros w2 _. now split.
Qed.

Ltac tame_step :=
  match goal with
  | |- tame _ (bind _ _) => apply tame_bind; [ | intros ? ]
  | |- tame _ (ret _) => apply tame_ret
  | |- tame _ (panic _) => apply tame_panic
  | |- tame _ (emit _) => apply tame_emit; reflexivity
  | |- tame _ (log _ _ _) => apply tame_log; reflexivity
  | |- tame _ (defer _ _) => apply tame_defer
  | |- tame _ turn => apply tame_turn
  | |- tame _ (os_OpenFile _ _ _ _) => apply tame_OpenFile; reflexivity
  | |- tame _ (file_WriteString _ _ _) => apply tame_WriteString; reflexivity
  | |- tame _ (file_Close _) => apply tame_Close; reflexivity
  | |- tame _ (match ?x with _ => _ end) => destruct x
  end.

Lemma tame_callExternalCommand env c : tame local (callExternalCommand env c).
Proof. unfold callExternalCommand. repeat tame_step. Qed.

Lemma tame_handleCertificateResponse env c response :
  tame local (handleCertificateResponse env c response).
Proof.
  unfold handleCertificateResponse. fold cert_open_flags.
  repeat tame_step. apply tame_callExternalCommand.
Qed.

Lemma local_calm (e : Event) : local e = true -> calm e = true.
Proof. now destruct e. Qed.

Lemma tame_doSigningRequest env c request :
  tame calm (doSigningRequest env c request).
Proof.
  unfold doSigningRequest. destruct (signing_target c request) as [url body].
  repeat tame_step.
Qed.

Lemma tame_acquire env c encoded : tame calm (acquire env c encoded).
Proof.
  unfold acquire. apply tame_bind; [apply tame_doSigningRequest | intros [response|err]].
  - apply (tame_weaken local calm); [exact local_calm |].
    apply tame_handleCertificateResponse.
  - apply tame_ret.
Qed.

(** ** One turn of the loop, in terms of the acquisition it makes *)

Section TurnFacts.

Variable env : Env.
Variable c : Config.
Variable encoded : string.

Lemma run_turn_acquire (w : World) :
  match acquire env c encoded (announced env c w) with
  | (Val (Some err), w1) =>
      exists msg,
        run_turn env c encoded w =
          (Val tt,
           set_trace (trace w1 ++ [EvLog ErrorLevel msg [("error", err)];
                                   EvSleep (5 * Second)]) w1)
  | (Val None, w1) =>
      run_turn env c encoded w =
        if Onetime c
        then (Exit 0,
              set_trace (trace w1 ++ [success_log env c; EvSend true; onetime_log; EvExit 0]) w1)
        else (Val tt,
              set_trace (trace w1 ++ [success_log env c; EvSend true; rotation_log env c;
                                      EvSleep (Expiry c)]) w1)
  | (Panic msg, w1) => run_turn env c encoded w = (Panic msg, w1)
  | (Exit code, w1) => run_turn env c encoded w = (Exit code, w1)
  | (Running, w1) => run_turn env c encoded w = (Running, w1)
  end.
Proof.
  unfold run_turn, acquire, announced, attempt_log, success_log, onetime_log, rotation_log.
  unfold bind, log, emit, time_Sleep, send_done, os_Exit, ret, set_trace. simpl.
  destruct (doSigningRequest env c _ _) as [[[response|err]| | |] w1];
    try reflexivity.
  - destruct (handleCertificateResponse env c response w1) as [[[err|]| | |] w2];
      try reflexivity.
    + eexists. unfold emit, set_trace. simpl. rewrite <- app_assoc. reflexivity.
    + destruct (Onetime c); unfold emit, os_Exit, set_trace; simpl;
        repeat rewrite <- app_assoc; reflexivity.
  - eexists. unfold emit, set_trace. simpl. rewrite <- app_assoc. reflexivity.
Qed.

(** The verdict on a turn does not depend on the world it is taken in. *)
Lemma acquire_verdict (w : World) :
  fst (acquire env c encoded w) = fst (acquire env c encoded (probe (attempt w))).
Proof.
  destruct (tame_acquire env c encoded w) as (d & _ & _ & _ & Hind).
  symmetry. apply Hind. reflexivity.
Qed.

Lemma doSigningRequest_world (request : SigningRequest) (w : World) :
  exists t, snd (doSigningRequest env c request w) = set_trace t w.
Proof.
  destruct w as [f d t a]. unfold doSigningRequest.
  destruct (signing_target c request) as [url payload];
    (destruct (json_Marshal env _) as [body|err];
     [ destruct (http_NewRequest env _ _ body) as [err|];
       [ | unfold bind, turn, emit; simpl;
           destruct (client_Do env _ _ body) as [[code [content|err]]|err]; simpl;
           [ destruct (json_Unmarshal env content) | | ] ]
     | ]);
    unfold ret, set_trace; simpl; eexists; reflexivity.
Qed.

(** A handler that returns an error has left the file system alone, unless
    the error is that of the write. *)
Lemma handle_error_keeps_fs (response : SigningResponse) (w : World) err :
  fst (handleCertificateResponse env c response w) = Val (Some err) ->
  write_fault env (attempt w) (CertificateFile env c) (persisted_text response) = None ->
  fs (snd (handleCertificateResponse env c response w)) = fs w.
Proof.
  intros Hr Hw.
  destruct (Success response) eqn:Hs.
  - destruct (string_dec (Certificate (Result response)) "") as [Hc|Hc].
    + now rewrite handle_no_certificate.
    + destruct (open_fault env (attempt w) (CertificateFile env c)) as [oerr|] eqn:Ho.
      * now rewrite handle_open_fault with (err := oerr).
      * exfalso. destruct (string_dec (ExecCommand c) "") as [Hx|Hx].
        -- rewrite handle_written in Hr by assumption. discriminate.
        -- rewrite handle_hook in Hr by assumption.
           destruct (hook_crashes _) in Hr; discriminate.
  - destruct (Errors response) as [|first rest] eqn:He.
    + now rewrite handle_unsuccessful_empty.
    + now rewrite handle_unsuccessful with (first := first) (rest := rest).
Qed.

Lemma acquire_error_keeps_fs (w : World) err :
  fst (acquire env c encoded w) = Val (Some err) ->
  (forall s, write_fault env (attempt w) (CertificateFile env c) s = None) ->
  fs (snd (acquire env c encoded w)) = fs w.
Proof.
  intros Hr Hw. unfold acquire, bind in *.
  destruct (doSigningRequest_world (mkSigningRequest encoded (EndpointProfile c) true) w)
    as [t Ht].
  destruct (doSigningRequest env c _ w) as [[[response|e]| | |] w1];
    simpl in Ht; subst w1; try reflexivity.
  rewrite handle_error_keeps_fs with (err := err); [reflexivity | exact Hr | apply Hw].
Qed.

End TurnFacts.

(** ** The loop *)

Section LoopFacts.

Variable env : Env.
Variable c : Config.
Variable encoded : string.

Lemma calm_quiet (d : list Event) :
  forallb calm d = true ->
  List.filter is_sleep d = [] /\ List.filter is_exit d = [].
Proof.
  induction d as [|e d IH]; simpl; [now split |].
  intros H. apply andb_true_iff in H as [He Hd].
  destruct (IH Hd) as [IH1 IH2]. unfold calm in He.
  destruct (is_sleep e), (is_exit e); simpl in He; try discriminate.
  now split.
Qed.

(** A failed attempt: the turn ends normally after one sleep of five
    seconds, the only sleep of the turn. *)
Lemma run_turn_failed (w : World) :
  attempt_fails env c encoded (attempt w) = true ->
  exists w' delta,
    run_turn env c encoded w = (Val tt, w') /\
    trace w' = trace w ++ delta /\
    List.filter is_sleep delta = [EvSleep (5 * Second)] /\
    List.filter is_exit delta = [] /\
    attempt w' = attempt w /\
    ((forall s, write_fault env (attempt w) (CertificateFile env c) s = None) ->
     fs w' = fs w).
Proof.
  intros Hf. unfold attempt_fails in Hf.
  pose proof (run_turn_acquire env c encoded w) as Hrun.
  pose proof (acquire_verdict env c encoded (announced env c w)) as Hv.
  pose proof (acquire_error_keeps_fs env c encoded (announced env c w)) as Hfs.
  destruct (tame_acquire env c encoded (announced env c w)) as (d & Ht & HP & Ha & _).
  change (attempt (announced env c w)) with (attempt w) in *.
  rewrite <- Hv in Hf.
  destruct (acquire env c encoded (announced env c w)) as [r w1].
  simpl in Hf, Ht, Ha, Hfs.
  destruct r as [[err|]| | |]; try discriminate.
  destruct Hrun as [msg Hrun]. destruct (calm_quiet d HP) as [Hs He].
  eexists. exists ([attempt_log env c] ++ d ++
                   [EvLog ErrorLevel msg [("error", err)]; EvSleep (5 * Second)]).
  split; [exact Hrun |]. simpl.
  split; [rewrite Ht; simpl; now rewrite <- !app_assoc |].
  rewrite !List.filter_app, Hs, He. simpl.
  split; [reflexivity | split; [reflexivity | split; [exact Ha |]]].
  intros Hw. now apply (Hfs err).
Qed.

(** A successful attempt: what follows the acquisition is fixed by the
    mode. *)
Lemma run_turn_succeeded (w : World) :
  attempt_succeeds env c encoded (attempt w) = true ->
  exists w1 d,
    forallb calm d = true /\
    trace w1 = trace w ++ attempt_log env c :: d /\
    attempt w1 = attempt w /\
    run_turn env c encoded w =
      if Onetime c
      then (Exit 0,
            set_trace (trace w1 ++ [success_log env c; EvSend true;
                                    onetime_log; EvExit 0]) w1)
      else (Val tt,
            set_trace (trace w1 ++ [success_log env c; EvSend true;
                                    rotation_log env c; EvSleep (Expiry c)]) w1).
Proof.
  intros Hf. unfold attempt_succeeds in Hf.
  pose proof (run_turn_acquire env c encoded w) as Hrun.
  pose proof (acquire_verdict env c encoded (announced env c w)) as Hv.
  destruct (tame_acquire env c encoded (announced env c w)) as (d & Ht & HP & Ha & _).
  change (attempt (announced env c w)) with (attempt w) in *.
  rewrite <- Hv in Hf.
  destruct (acquire env c encoded (announced env c w)) as [r w1].
  simpl in Hf, Ht, Ha.
  destruct r as [[err|]| | |]; try discriminate.
  exists w1, d. split; [exact HP |]. split; [| split; [exact Ha | exact Hrun]].
  rewrite Ht. simpl. now rewrite <- app_assoc.
Qed.

(** [n] failed attempts in a row: the loop is [n] turns further, having
    slept five seconds [n] times and never exited. *)
Lemma run_loop_failures (n : nat) :
  forall w,
    (forall i, (attempt w <= i < attempt w + n)%nat ->
               attempt_fails env c encoded i = true) ->
    exists w' delta,
      (forall fuel, run_loop env c (n + fuel) encoded w = run_loop env c fuel encoded w') /\
      trace w' = trace w ++ delta /\
      List.filter is_sleep delta = repeat (EvSleep (5 * Second)) n /\
      List.filter is_exit delta = [] /\
      attempt w' = (attempt w + n)%nat /\
      ((forall i s, write_fault env i (CertificateFile env c) s = None) ->
       fs w' = fs w).
Proof.
  induction n as [|n IH]; intros w Hall.
  - exists w, []. rewrite app_nil_r, Nat.add_0_r. repeat split.
  - destruct (run_turn_failed w) as (w1 & d1 & Hrun & Ht1 & Hs1 & He1 & Ha1 & Hfs1).
    { apply Hall. lia. }
    set (w2 := set_attempt (S (attempt w1)) w1).
    destruct (IH w2) as (w' & d2 & Hloop & Ht2 & Hs2 & He2 & Ha2 & Hfs2).
    { intros i Hi. apply Hall. simpl in Hi. lia. }
    exists w', (d1 ++ d2).
    split; [| split; [| split; [| split; [| split]]]].
    + intros fuel. simpl. unfold bind at 1. rewrite Hrun.
      unfold bind at 1. unfold next_turn. fold w2. apply Hloop.
    + rewrite Ht2. simpl. rewrite Ht1. now rewrite app_assoc.
    + rewrite List.filter_app, Hs1, Hs2. reflexivity.
    + rewrite List.filter_app, He1, He2. reflexivity.
    + rewrite Ha2. simpl. lia.
    + intros Hw. rewrite Hfs2 by exact Hw. simpl. apply Hfs1. intros s. apply Hw.
Qed.

End LoopFacts.

(** ** The requests of a run *)

Section RequestFacts.

Variable env : Env.
Variable c : Config.

Lemma request_events_cases (request : SigningRequest) :
  let '(url, payload) := signing_target c request in
  match json_Marshal env payload with
  | Good body =>
      match http_NewRequest env "POST" url body with
      | None => request_events env c request = [EvHTTP "POST" url body]
      | Some _ => request_events env c request = []
      end
  | Bad _ => request_events env c request = []
  end.
Proof.
  unfold request_events, doSigningRequest.
  destruct (signing_target c request) as [url payload].
  destruct (json_Marshal env payload) as [body|err]; [| reflexivity].
  destruct (http_NewRequest env "POST" url body) as [err|]; [reflexivity |].
  unfold bind, turn, emit. simpl.
  destruct (client_Do env _ url body) as [[code [content|err]]|err]; simpl;
    try reflexivity.
  destruct (json_Unmarshal env content); reflexivity.
Qed.

Lemma doSigningRequest_trace (request : SigningRequest) (w : World) :
  trace (snd (doSigningRequest env c request w)) = trace w ++ request_events env c request.
Proof.
  pose proof (request_events_cases request) as H.
  unfold doSigningRequest.
  destruct (signing_target c request) as [url payload].
  destruct (json_Marshal env payload) as [body|err];
    [| rewrite H; simpl; now rewrite app_nil_r].
  destruct (http_NewRequest env "POST" url body) as [err|];
    [rewrite H; simpl; now rewrite app_nil_r |].
  rewrite H. unfold bind, turn, emit. simpl.
  destruct (client_Do env _ url body) as [[code [content|err]]|err]; simpl;
    try reflexivity.
  destruct (json_Unmarshal env content); reflexivity.
Qed.










End RequestFacts.

(** The end-to-end scenario of the specification, in one-shot mode: the
    endpoint is unreachable twice and answers the third time.  The run sleeps
    five seconds twice, writes the bundle once and exits with status 0. *)
Example third_attempt_succeeds :
  let outcome := run Demo.third_time_lucky (Demo.with_onetime Demo.config) 5 (probe 0) in
  fst outcome = Exit 0 /\
  List.filter is_sleep (trace (snd outcome)) =
    [EvSleep (5 * Second); EvSleep (5 * Second)] /\
  List.filter is_file_op (trace (snd outcome)) =
    [EvOpenFile "/certs/tls.pem" cert_open_flags FileMode_0600;
     EvWriteString "/certs/tls.pem" "LEAF+CHAIN";
     EvClose "/certs/tls.pem"] /\
  fs (snd outcome) !! "/certs/tls.pem" = Some (mkFile FileMode_0600 "LEAF+CHAIN") /\
  attempt (snd outcome) = 2%nat.
Proof. repeat split. Qed.

(** * The claims *)

(** C1. The handler is meant to return an error for every response whose
    success flag is false.  On a response with the flag false and no error
    entry (the JSON body [{"success":false}]) it does not return: indexing
    the first entry of the empty list panics, and nothing has been written. *)
Theorem C1_refusal_without_reason_panics :
  handleCertificateResponse (Demo.fine Demo.signed) Demo.config
                            Demo.refused_silently (probe 0) =
    (Panic "runtime error: index out of range", probe 0).
Proof. reflexivity. Qed.





(** C4. For a successful response (success flag set, certificate present)
    whose certificate file can be opened and written, the text in the
    certificate file after the handler is the bundle when the bundle field is
    not empty, and the bare certificate when it is; this is also the text
    handed to the one write. *)
Theorem C4_bundle_else_certificate env c (response : SigningResponse) (w : World) :
  Success response = true ->
  Certificate (Result response) <> "" ->
  open_fault env (attempt w) (CertificateFile env c) = None ->
  write_fault env (attempt w) (CertificateFile env c) (persisted_text response) = None ->
  let w' := snd (handleCertificateResponse env c response w) in
  exists f text,
    fs w' !! CertificateFile env c = Some f /\
    data f = text /\
    In (EvWriteString (CertificateFile env c) text) (trace w') /\
    (BundleText (ResultBundle (Result response)) <> "" ->
     text = BundleText (ResultBundle (Result response))) /\
    (BundleText (ResultBundle (Result response)) = "" ->
     text = Certificate (Result response)).
Proof.
  intros Hs Hc Ho Hw w'.
  assert (Htext :
    (BundleText (ResultBundle (Result response)) <> "" ->
     persisted_text response = BundleText (ResultBundle (Result response))) /\
    (BundleText (ResultBundle (Result response)) = "" ->
     persisted_text response = Certificate (Result response))).
  { unfold persisted_text. split; intros H.
    - now rewrite (eqb_empty_false _ H).
    - now rewrite H. }
  exists (mkFile (mode (opened_file env w (CertificateFile env c) FileMode_0600))
                 (persisted_text response)), (persisted_text response).
  subst w'.
  destruct (string_dec (ExecCommand c) "") as [Hx|Hx].
  - rewrite handle_written by assumption. simpl.
    split; [apply lookup_insert_eq | split; [reflexivity | split; [| exact Htext]]].
    apply in_or_app. right. simpl. tauto.
  - rewrite handle_hook by assumption.
    destruct (hook_crashes _); simpl;
      (split; [apply lookup_insert_eq | split; [reflexivity | split; [| exact Htext]]]);
      apply in_or_app; right; simpl; tauto.
Qed.

Lemma C4_bundle_else_certificate_witness :
  exists f text,
    fs (snd (handleCertificateResponse (Demo.fine Demo.signed) Demo.config
               Demo.signed Demo.renewed)) !! "/certs/tls.pem" = Some f /\
    data f = text /\
    In (EvWriteString "/certs/tls.pem" text)
       (trace (snd (handleCertificateResponse (Demo.fine Demo.signed) Demo.config
                      Demo.signed Demo.renewed))) /\
    (BundleText (ResultBundle (Result Demo.signed)) <> "" -> text = "LEAF+CHAIN") /\
    (BundleText (ResultBundle (Result Demo.signed)) = "" -> text = "LEAF").
Proof.
  apply (C4_bundle_else_certificate (Demo.fine Demo.signed) Demo.config
           Demo.signed Demo.renewed).
  - reflexivity.
  - discriminate.
  - reflexivity.
  - reflexivity.
Defined.



(** C6.  When the turn reached after [n] failed attempts is the first
    successful acquisition: in one-shot mode the process exits with status 0
    in that turn, and the only sleeps of the whole loop are the [n] sleeps of
    five seconds that followed the failed attempts (none for the rotation
    interval, none at all when the first attempt succeeds); in continuous
    mode the turn ends with a sleep of exactly the configured rotation
    interval, after which the loop goes on with the next attempt. *)
Theorem C6_exit_or_sleep_the_interval env c (encoded : string) (n : nat) (w : World) :
  (forall i, (attempt w <= i < attempt w + n)%nat ->
             attempt_fails env c encoded i = true) ->
  attempt_succeeds env c encoded (attempt w + n) = true ->
  (Onetime c = true ->
   exists w' delta,
     (forall fuel, run_loop env c (n + S fuel) encoded w = (Exit 0, w')) /\
     trace w' = trace w ++ delta ++ [EvExit 0] /\
     List.filter is_sleep delta = repeat (EvSleep (5 * Second)) n /\
     List.filter is_exit delta = []) /\
  (Onetime c = false ->
   exists w' delta,
     (forall fuel, run_loop env c (n + S fuel) encoded w = run_loop env c fuel encoded w') /\
     trace w' = trace w ++ delta ++ [EvSleep (Expiry c)] /\
     List.filter is_sleep delta = repeat (EvSleep (5 * Second)) n /\
     List.filter is_exit delta = [] /\
     attempt w' = S (attempt w + n)).
Proof.
  intros Hall Hok.
  destruct (run_loop_failures env c encoded n w Hall)
    as (wn & dn & Hloop & Htn & Hsn & Hen & Han & _).
  rewrite <- Han in Hok.
  destruct (run_turn_succeeded env c encoded wn Hok) as (w1 & d & HP & Ht1 & Ha1 & Hrun).
  destruct (calm_quiet d HP) as [Hsd Hed].
  split; intros Hmode; rewrite Hmode in Hrun.
  - eexists. exists (dn ++ attempt_log env c :: d ++
                     [success_log env c; EvSend true; onetime_log]).
    split; [| split; [| split]].
    + intros fuel. rewrite Hloop. simpl. unfold bind at 1. rewrite Hrun. reflexivity.
    + simpl. rewrite Ht1, Htn. rewrite <- !app_assoc. simpl. now rewrite <- !app_assoc.
    + rewrite List.filter_app, Hsn. simpl. rewrite List.filter_app, Hsd. simpl.
      now rewrite app_nil_r.
    + rewrite List.filter_app, Hen. simpl. rewrite List.filter_app, Hed. reflexivity.
  - eexists. exists (dn ++ attempt_log env c :: d ++
                     [success_log env c; EvSend true; rotation_log env c]).
    split; [| split; [| split; [| split]]].
    + intros fuel. rewrite Hloop. simpl. unfold bind at 1. rewrite Hrun.
      unfold bind at 1. unfold next_turn. reflexivity.
    + simpl. rewrite Ht1, Htn. rewrite <- !app_assoc. simpl. now rewrite <- !app_assoc.
    + rewrite List.filter_app, Hsn. simpl. rewrite List.filter_app, Hsd. simpl.
      now rewrite app_nil_r.
    + rewrite List.filter_app, Hen. simpl. rewrite List.filter_app, Hed. reflexivity.
    + simpl. now rewrite Ha1, Han.
Qed.

Lemma C6_exit_or_sleep_the_interval_witness :
  (Onetime (Demo.with_onetime Demo.config) = true ->
   exists w' delta,
     (forall fuel, run_loop Demo.third_time_lucky (Demo.with_onetime Demo.config)
                            (2 + S fuel) "PEM CSR" Demo.renewed = (Exit 0, w')) /\
     trace w' = trace Demo.renewed ++ delta ++ [EvExit 0] /\
     List.filter is_sleep delta = repeat (EvSleep (5 * Second)) 2 /\
     List.filter is_exit delta = []) /\
  (Onetime (Demo.with_onetime Demo.config) = false ->
   exists w' delta,
     (forall fuel, run_loop Demo.third_time_lucky (Demo.with_onetime Demo.config)
                            (2 + S fuel) "PEM CSR" Demo.renewed =
                   run_loop Demo.third_time_lucky (Demo.with_onetime Demo.config)
                            fuel "PEM CSR" w') /\
     trace w' = trace Demo.renewed ++ delta ++
                [EvSleep (Expiry (Demo.with_onetime Demo.config))] /\
     List.filter is_sleep delta = repeat (EvSleep (5 * Second)) 2 /\
     List.filter is_exit delta = [] /\
     attempt w' = S (attempt Demo.renewed + 2)).
Proof.
  apply (C6_exit_or_sleep_the_interval Demo.third_time_lucky
           (Demo.with_onetime Demo.config) "PEM CSR" 2 Demo.renewed).
  - intros i Hi. simpl in Hi.
    destruct i as [|[|i]]; [reflexivity | reflexivity | lia].
  - reflexivity.
Defined.

(** C7. A signing attempt addresses [{endpoint}/api/v1/cfssl/authsign] with
    the envelope made of the token and the request exactly when the
    configured token is not empty, and [{endpoint}/api/v1/cfssl/sign] with
    the plain request otherwise.  In both cases the envelope goes through
    [json.Marshal] and the exchange is one POST of the resulting text to that
    address (no exchange takes place when the text or the request cannot be
    built, and the error is returned). *)
Theorem C7_one_post_to_the_chosen_path env c (request : SigningRequest) (w : World) :
  exists url payload delta,
    signing_target c request = (url, payload) /\
    (EndpointToken c <> "" ->
     url = EndpointURL c +:+ "/api/v1/cfssl/authsign" /\
     payload = AuthBody (mkAuthSigningRequest (EndpointToken c) request)) /\
    (EndpointToken c = "" ->
     url = EndpointURL c +:+ "/api/v1/cfssl/sign" /\
     payload = PlainBody request) /\
    trace (snd (doSigningRequest env c request w)) = trace w ++ delta /\
    match json_Marshal env payload with
    | Good body =>
        match http_NewRequest env "POST" url body with
        | None => delta = [EvHTTP "POST" url body]
        | Some err =>
            delta = [] /\ fst (doSigningRequest env c request w) = Val (Bad err)
        end
    | Bad err =>
        delta = [] /\ fst (doSigningRequest env c request w) = Val (Bad err)
    end.
Proof.
  pose proof (request_events_cases env c request) as Hev.
  pose proof (doSigningRequest_trace env c request w) as Htr.
  destruct (signing_target c request) as [url payload] eqn:Etarget.
  exists url, payload, (request_events env c request).
  split; [reflexivity |].
  unfold signing_target in Etarget.
  split; [| split; [| split; [exact Htr |]]].
  - intros Htok. rewrite (eqb_empty_false _ Htok) in Etarget. simpl in Etarget.
    now inversion Etarget.
  - intros Htok. rewrite Htok in Etarget. simpl in Etarget. now inversion Etarget.
  - unfold doSigningRequest, signing_target. unfold signing_target in Hev.
    destruct (negb (String.eqb (EndpointToken c) ""));
      inversion Etarget; subst url payload;
      (destruct (json_Marshal env _) as [body|err]; [| now split]);
      (destruct (http_NewRequest env "POST" _ body) as [err|]; [now split | exact Hev]).
Qed.


(** C9. For a response whose success flag is false the first entry of the
    errors list is read unguarded: the handler panics exactly when the list
    is empty, and with at least one entry it returns the error made of the
    first message, leaving the world as it was. *)
Theorem C9_first_error_unguarded env c (response : SigningResponse) (w : World) :
  Success response = false ->
  ((exists msg, fst (handleCertificateResponse env c response w) = Panic msg) <->
   Errors response = []) /\
  (forall first rest, Errors response = first :: rest ->
     handleCertificateResponse env c response w =
       (Val (Some ("unsuccessful operation, errors: " +:+ Message first)), w)).
Proof.
  intros Hs. split.
  - destruct (Errors response) as [|first rest] eqn:He.
    + rewrite handle_unsuccessful_empty by assumption. split; [reflexivity | eauto].
    + rewrite handle_unsuccessful with (first := first) (rest := rest) by assumption.
      split; [intros [msg H]; discriminate | discriminate].
  - intros first rest He. now apply handle_unsuccessful with (rest := rest).
Qed.

Lemma C9_first_error_unguarded_witness :
  ((exists msg, fst (handleCertificateResponse (Demo.fine Demo.signed) Demo.config
                       Demo.refused (probe 0)) = Panic msg) <->
   Errors Demo.refused = []) /\
  (forall first rest, Errors Demo.refused = first :: rest ->
     handleCertificateResponse (Demo.fine Demo.signed) Demo.config Demo.refused (probe 0) =
       (Val (Some ("unsuccessful operation, errors: " +:+ Message first)), probe 0)).
Proof.
  apply (C9_first_error_unguarded (Demo.fine Demo.signed) Demo.config Demo.refused (probe 0)).
  reflexivity.
Defined.

(** C10, as stated, does not hold: when the start of the reload command
    fails, [cmd.Wait] returns at once and [timer.Stop] disarms the deadline
    before it passes.  With the default timeout of one minute the armed
    function does not run: the handler logs the error of [Wait] and returns
    nil, and no kill is attempted. *)
Lemma C10_failed_start_without_kill :
  hook_run (Demo.hooked (StartFailed "executable file not found in $PATH" false)) 0
           (ExecCommand Demo.hook_config)
           ["/certs/tls.pem"; "/certs/tls-key.pem"; "/certs/tls-ca.pem"]
           (Timeout Demo.hook_config)
    = StartFailed "executable file not found in $PATH" false /\
  fst (handleCertificateResponse
         (Demo.hooked (StartFailed "executable file not found in $PATH" false))
         Demo.hook_config Demo.signed (probe 0)) = Val None /\
  trace (snd (handleCertificateResponse
                (Demo.hooked (StartFailed "executable file not found in $PATH" false))
                Demo.hook_config Demo.signed (probe 0))) =
    [EvLog InfoLevel "writing the certificate to disk" [("path", "/certs/tls.pem")];
     EvOpenFile "/certs/tls.pem" 578 384;
     EvWriteString "/certs/tls.pem" "LEAF+CHAIN";
     EvLog InfoLevel "calling external command"
           [("command", "/usr/local/bin/reload"); ("timeout", "1m0s")];
     EvStart "/usr/local/bin/reload"
             ["/certs/tls.pem"; "/certs/tls-key.pem"; "/certs/tls-ca.pem"];
     EvAfterFunc 60000000000;
     EvWait;
     EvTimerStop;
     EvLog ErrorLevel "error calling external command"
           [("command", "/usr/local/bin/reload"); ("error", "exec: not started")];
     EvClose "/certs/tls.pem"].
Proof. repeat split. Qed.

(** C10, amended.  When a reload command is configured the result of
    starting the child is discarded and the deadline is armed all the same.
    The handler then aborts the process exactly when the start failed and
    the armed function runs before the timer is stopped: the kill
    dereferences the nil process handle.  If the start failed and the timer
    is stopped first, the handler logs "exec: not started" and returns nil;
    if the command started, the kill path never panics and the handler
    returns nil. *)
Theorem C10_kill_needs_started_command env c (response : SigningResponse) (w : World) :
  Success response = true ->
  Certificate (Result response) <> "" ->
  ExecCommand c <> "" ->
  open_fault env (attempt w) (CertificateFile env c) = None ->
  write_fault env (attempt w) (CertificateFile env c) (persisted_text response) = None ->
  let args := [CertificateFile env c; PrivateKeyFile env c; CAFile env c] in
  let h := hook_run env (attempt w) (ExecCommand c) args (Timeout c) in
  let r := handleCertificateResponse env c response w in
  exists delta,
    trace (snd r) = trace w ++ delta /\
    (exists before after,
       delta = before ++ [EvStart (ExecCommand c) args; EvAfterFunc (Timeout c)] ++ after) /\
    ((exists msg, fst r = Panic msg) <-> (exists start_err, h = StartFailed start_err true)) /\
    (forall start_err, h = StartFailed start_err true ->
       fst r = Panic "runtime error: invalid memory address or nil pointer dereference" /\
       List.last delta EvWait = EvKill) /\
    (forall start_err, h = StartFailed start_err false ->
       fst r = Val None /\
       ~ In EvKill delta /\
       In (EvLog ErrorLevel "error calling external command"
                 [("command", ExecCommand c); ("error", "exec: not started")]) delta) /\
    (forall kill wait_err, h = Started kill wait_err -> fst r = Val None).
Proof.
  intros Hs Hc Hx Ho Hw args h r. subst r.
  rewrite handle_hook by assumption. fold args. fold h.
  set (before := [writing_log env c;
                  EvOpenFile (CertificateFile env c) cert_open_flags FileMode_0600;
                  EvWriteString (CertificateFile env c) (persisted_text response);
                  EvLog InfoLevel "calling external command"
                        [("command", ExecCommand c);
                         ("timeout", Duration_String env (Timeout c))]]).
  destruct h as [serr [|] | [[kerr|]|] [werr|]]; simpl;
    (eexists; split; [reflexivity |];
     split; [exists before; eexists; reflexivity |];
     split; [split; [intros [msg H]; first [discriminate | eauto]
                    | intros [e H]; first [discriminate | eauto]] |];
     split; [intros e H; first [discriminate | split; reflexivity] |];
     split; [intros e H; first [discriminate
                               | split; [reflexivity | split; [| simpl; tauto]];
                                 unfold writing_log, hook_error_log; simpl;
                                 intros K; repeat (destruct K as [K|K]; [discriminate |]);
                                 exact K] |];
     intros k we H; first [discriminate | reflexivity]).
Qed.

Lemma C10_kill_needs_started_command_witness :
  let env := Demo.hooked (StartFailed "executable file not found in $PATH" true) in
  let args := ["/certs/tls.pem"; "/certs/tls-key.pem"; "/certs/tls-ca.pem"] in
  let h := hook_run env 0 "/usr/local/bin/reload" args (60 * Second) in
  let r := handleCertificateResponse env Demo.hook_config Demo.signed (probe 0) in
  exists delta,
    trace (snd r) = [] ++ delta /\
    (exists before after,
       delta = before ++ [EvStart "/usr/local/bin/reload" args;
                          EvAfterFunc (60 * Second)] ++ after) /\
    ((exists msg, fst r = Panic msg) <-> (exists start_err, h = StartFailed start_err true)) /\
    (forall start_err, h = StartFailed start_err true ->
       fst r = Panic "runtime error: invalid memory address or nil pointer dereference" /\
       List.last delta EvWait = EvKill) /\
    (forall start_err, h = StartFailed start_err false ->
       fst r = Val None /\
       ~ In EvKill delta /\
       In (EvLog ErrorLevel "error calling external command"
                 [("command", "/usr/local/bin/reload"); ("error", "exec: not started")])
          delta) /\
    (forall kill wait_err, h = Started kill wait_err -> fst r = Val None).
Proof.
  apply (C10_kill_needs_started_command
           (Demo.hooked (StartFailed "executable file not found in $PATH" true))
           Demo.hook_config Demo.signed (probe 0)).
  - reflexivity.
  - discriminate.
  - discriminate.
  - reflexivity.
  - reflexivity.
Defined.

(** * Further properties of the controller *)

(** ** The signing exchange *)


(** An answer with status 500 and a decodable body is taken as the
    response. *)
Example status_is_not_looked_at :
  fst (doSigningRequest Scenario.server_error Demo.config
         (mkSigningRequest "PEM CSR" "server" true) (probe 0)) = Val (Good Demo.signed).
Proof. reflexivity. Qed.

(** ** The handler and the reload hook *)

Section HookFacts.

Variable env : Env.
Variable c : Config.

Lemma hook_trace_starts (h : HookRun) :
  List.filter is_start (hook_trace env c h) =
    [EvStart (ExecCommand c) [CertificateFile env c; PrivateKeyFile env c; CAFile env c]].
Proof. destruct h as [serr [|] | [[kerr|]|] [werr|]]; reflexivity. Qed.

(** The cases of the handler in which the hook is not reached, and what it
    does then. *)
Lemma handle_short_cases (response : SigningResponse) (w : World) :
  ~ reaches_hook env c response w ->
  exists delta,
    handleCertificateResponse env c response w =
      (fst (handleCertificateResponse env c response w),
       mkWorld (fs (snd (handleCertificateResponse env c response w)))
               (fds (snd (handleCertificateResponse env c response w)))
               (trace w ++ delta) (attempt w)) /\
    (delta = [] \/
     delta = [writing_log env c;
              EvOpenFile (CertificateFile env c) cert_open_flags FileMode_0600] \/
     delta = [writing_log env c;
              EvOpenFile (CertificateFile env c) cert_open_flags FileMode_0600;
              EvWriteString (CertificateFile env c) (persisted_text response);
              EvClose (CertificateFile env c)]).
Proof.
  intros Hnot. unfold reaches_hook in Hnot.
  destruct (Success response) eqn:Hs.
  - destruct (string_dec (Certificate (Result response)) "") as [Hc|Hc].
    { rewrite handle_no_certificate by assumption. exists []. simpl.
      rewrite app_nil_r. split; [now destruct w | now left]. }
    destruct (open_fault env (attempt w) (CertificateFile env c)) as [oerr|] eqn:Ho.
    { rewrite handle_open_fault with (err := oerr) by assumption.
      eexists. simpl. split; [reflexivity | right; now left]. }
    destruct (write_fault env (attempt w) (CertificateFile env c) (persisted_text response))
      as [[n werr]|] eqn:Hw.
    { rewrite handle_write_fault with (n := n) (err := werr) by assumption.
      eexists. simpl. split; [reflexivity | right; now right]. }
    destruct (string_dec (ExecCommand c) "") as [Hx|Hx]; [| tauto].
    rewrite handle_written by assumption.
    eexists. simpl. split; [reflexivity | right; now right].
  - destruct (Errors response) as [|first rest] eqn:He.
    + rewrite handle_unsuccessful_empty by assumption. exists []. simpl.
      rewrite app_nil_r. split; [now destruct w | now left].
    + rewrite handle_unsuccessful with (first := first) (rest := rest) by assumption.
      exists []. simpl. rewrite app_nil_r. split; [now destruct w | now left].
Qed.

Lemma reaches_hook_dec (response : SigningResponse) (w : World) :
  reaches_hook env c response w \/ ~ reaches_hook env c response w.
Proof.
  unfold reaches_hook.
  destruct (Success response); [| right; intros [H _]; discriminate].
  destruct (string_dec (Certificate (Result response)) "") as [Hc|Hc]; [right; tauto |].
  destruct (open_fault env (attempt w) (CertificateFile env c));
    [right; intros (_ & _ & H & _); discriminate |].
  destruct (write_fault env (attempt w) (CertificateFile env c) (persisted_text response));
    [right; intros (_ & _ & _ & H & _); discriminate |].
  destruct (string_dec (ExecCommand c) "") as [Hx|Hx]; [right; tauto | left; tauto].
Qed.

(** X2. The reload command is started exactly when a command is configured
    and the certificate has been written in full (the response is accepted,
    the open and the write succeed); it is then started once, with the paths
    of the certificate, of the private key and of the CA bundle as its three
    arguments.  In every other case the handler starts no process and arms
    no timer. *)
Theorem hook_started_only_after_full_write (response : SigningResponse) (w : World) :
  exists delta,
    trace (snd (handleCertificateResponse env c response w)) = trace w ++ delta /\
    (reaches_hook env c response w /\
     List.filter is_start delta =
       [EvStart (ExecCommand c)
                [CertificateFile env c; PrivateKeyFile env c; CAFile env c]] /\
     (exists before after,
        delta = before ++
                [EvWriteString (CertificateFile env c) (persisted_text response)] ++ after /\
        List.filter is_start before = [])
     \/
     ~ reaches_hook env c response w /\
     List.filter is_child_event delta = [] /\
     List.filter is_timer_event delta = []).
Proof.
  destruct (reaches_hook_dec response w) as [Hyes|Hno].
  - destruct Hyes as (Hs & Hc & Ho & Hw & Hx).
    rewrite handle_hook by assumption.
    destruct (hook_run env (attempt w) (ExecCommand c) _ (Timeout c))
      as [serr [|] | [[kerr|]|] [werr|]]; simpl;
      eexists; (split; [reflexivity |]); left;
      (split; [unfold reaches_hook; tauto |]);
      (split; [reflexivity |]);
      exists [writing_log env c;
              EvOpenFile (CertificateFile env c) cert_open_flags FileMode_0600];
      eexists; (split; reflexivity).
  - destruct (handle_short_cases response w Hno) as (delta & Heq & Hd).
    exists delta. rewrite Heq. simpl. split; [reflexivity |]. right.
    split; [exact Hno |].
    destruct Hd as [Hd|[Hd|Hd]]; rewrite Hd; now split.
Qed.


(** X4. The line "external command took too long, operation timed out" is
    logged exactly when the reload hook is reached, the deadline function
    runs on a started command, and its [Kill] returns an error: a kill that
    succeeds logs no such line. *)
Theorem timeout_line_only_when_kill_fails (response : SigningResponse) (w : World) :
  exists delta,
    trace (snd (handleCertificateResponse env c response w)) = trace w ++ delta /\
    (In timeout_log delta <->
     reaches_hook env c response w /\
     exists kill_err wait_err,
       hook_run env (attempt w) (ExecCommand c)
                [CertificateFile env c; PrivateKeyFile env c; CAFile env c] (Timeout c)
         = Started (Some (Some kill_err)) wait_err).
Proof.
  assert (Hlist : forall l : list Event,
            Forall (fun x => x <> timeout_log) l -> ~ In timeout_log l).
  { intros l Hl Hin. exact (proj1 (List.Forall_forall _ l) Hl _ Hin eq_refl). }
  destruct (reaches_hook_dec response w) as [Hyes|Hno].
  - pose proof Hyes as (Hs & Hc & Ho & Hw & Hx).
    rewrite handle_hook by assumption.
    destruct (hook_run env (attempt w) (ExecCommand c) _ (Timeout c))
      as [serr [|] | [[kerr|]|] [werr|]] eqn:Hh; simpl;
      eexists; (split; [reflexivity |]);
      (split;
       [ intros Hin; first
           [ solve [split; [exact Hyes | do 2 eexists; reflexivity]]
           | exfalso; revert Hin; apply Hlist;
             unfold hook_trace, writing_log, hook_error_log, timeout_log; simpl;
             repeat (constructor; [discriminate |]); constructor ]
       | intros (_ & k & we & Hk); first
           [ discriminate
           | unfold hook_trace, timeout_log; simpl; tauto ] ]).
  - destruct (handle_short_cases response w Hno) as (delta & Heq & Hd).
    exists delta. rewrite Heq. simpl. split; [reflexivity |].
    split; [| tauto]. intros Hin. exfalso. revert Hin. apply Hlist.
    destruct Hd as [Hd|[Hd|Hd]]; rewrite Hd;
      unfold writing_log, timeout_log;
      repeat (constructor; [discriminate |]); constructor.
Qed.

(** X5. When the write of the certificate fails after [n] bytes, the handler
    returns the error of the write as it is, having closed the descriptor;
    the certificate file holds the first [n] bytes of the new text and
    nothing of its earlier content, and the reload hook is not run. *)
Theorem failed_write_returns_its_error (response : SigningResponse) (w : World)
    (n : nat) (err : error) :
  Success response = true ->
  Certificate (Result response) <> "" ->
  open_fault env (attempt w) (CertificateFile env c) = None ->
  write_fault env (attempt w) (CertificateFile env c) (persisted_text response)
    = Some (n, err) ->
  let r := handleCertificateResponse env c response w in
  fst r = Val (Some err) /\
  fds (snd r) = fds w /\
  (exists f, fs (snd r) !! CertificateFile env c = Some f /\
             data f = string_take n (persisted_text response)) /\
  (forall name, name <> CertificateFile env c -> fs (snd r) !! name = fs w !! name) /\
  exists delta,
    trace (snd r) = trace w ++ delta /\
    List.filter is_child_event delta = [] /\
    List.last delta EvWait = EvClose (CertificateFile env c).
Proof.
  intros Hs Hc Ho Hw r. subst r.
  rewrite handle_write_fault with (n := n) (err := err) by assumption. simpl.
  split; [reflexivity |]. split; [reflexivity |].
  split; [eexists; split; [apply lookup_insert_eq | reflexivity] |].
  split; [intros name Hname; now apply lookup_insert_ne |].
  eexists. split; [reflexivity |]. now split.
Qed.

End HookFacts.

Lemma failed_write_returns_its_error_witness :
  let r := handleCertificateResponse Demo.disk_full Demo.config Demo.signed Demo.renewed in
  fst r = Val (Some "no space left on device") /\
  fds (snd r) = fds Demo.renewed /\
  (exists f, fs (snd r) !! CertificateFile Demo.disk_full Demo.config = Some f /\
             data f = string_take 3 (persisted_text Demo.signed)) /\
  (forall name, name <> CertificateFile Demo.disk_full Demo.config ->
                fs (snd r) !! name = fs Demo.renewed !! name) /\
  exists delta,
    trace (snd r) = trace Demo.renewed ++ delta /\
    List.filter is_child_event delta = [] /\
    List.last delta EvWait = EvClose (CertificateFile Demo.disk_full Demo.config).
Proof.
  apply (failed_write_returns_its_error Demo.disk_full Demo.config
           Demo.signed Demo.renewed 3
           "no space left on device").
  - reflexivity.
  - discriminate.
  - reflexivity.
  - reflexivity.
Defined.


(** X6. The handler reads four things of a response: the success flag; when
    the flag is false, the message of the first error entry; when it is
    true, the certificate and the bundle.  Error entries of a successful
    response, entries after the first, and the codes of the entries have no
    influence on what the handler returns and does. *)
Theorem handler_reads_four_fields env c (r1 r2 : SigningResponse) (w : World) :
  Success r1 = Success r2 ->
  (Success r1 = false ->
   option_map Message (hd_error (Errors r1)) = option_map Message (hd_error (Errors r2))) ->
  (Success r1 = true -> Result r1 = Result r2) ->
  handleCertificateResponse env c r1 w = handleCertificateResponse env c r2 w.
Proof.
  intros Hs He Hr. unfold handleCertificateResponse. rewrite <- Hs.
  destruct (Success r1).
  - now rewrite (Hr eq_refl).
  - specialize (He eq_refl).
    destruct (Errors r1) as [|m1 l1], (Errors r2) as [|m2 l2]; simpl in *;
      try discriminate; [reflexivity |].
    injection He as He. now rewrite He.
Qed.

Lemma handler_reads_four_fields_witness :
  handleCertificateResponse (Demo.fine Demo.signed) Demo.hook_config Demo.signed Demo.renewed =
  handleCertificateResponse (Demo.fine Demo.signed) Demo.hook_config
                            Scenario.signed_with_notes Demo.renewed.
Proof.
  apply (handler_reads_four_fields (Demo.fine Demo.signed) Demo.hook_config
           Demo.signed Scenario.signed_with_notes Demo.renewed).
  - reflexivity.
  - discriminate.
  - reflexivity.
Defined.

(** ** The loop and its ends *)

Lemma inner_quiet (d : list Event) :
  forallb inner d = true ->
  List.filter is_sleep d = [] /\ List.filter is_exit d = [] /\ List.filter is_send d = [].
Proof.
  induction d as [|e d IH]; simpl; [tauto |].
  intros H. apply andb_true_iff in H as [He Hd]. destruct (IH Hd) as (H1 & H2 & H3).
  destruct e; simpl in *; try discriminate; auto.
Qed.

Lemma inner_callExternalCommand env c : tame inner (callExternalCommand env c).
Proof. unfold callExternalCommand. repeat tame_step. Qed.

Lemma inner_handleCertificateResponse env c response :
  tame inner (handleCertificateResponse env c response).
Proof.
  unfold handleCertificateResponse. fold cert_open_flags.
  repeat tame_step. apply inner_callExternalCommand.
Qed.

Lemma inner_acquire env c encoded : tame inner (acquire env c encoded).
Proof.
  unfold acquire. apply tame_bind.
  - unfold doSigningRequest. destruct (signing_target c _) as [url body].
    repeat tame_step.
  - intros [response|err]; [apply inner_handleCertificateResponse | apply tame_ret].
Qed.

Section RunFacts.

Variable env : Env.
Variable c : Config.
Variable encoded : string.

(** A response that the signing exchange returns comes out of the decoder. *)
Lemma doSigningRequest_answer (request : SigningRequest) (w : World) :
  exists answer,
    fst (doSigningRequest env c request w) = Val answer /\
    forall response, answer = Good response ->
      exists content, json_Unmarshal env content = Good response.
Proof.
  unfold doSigningRequest. destruct (signing_target c request) as [url payload].
  destruct (json_Marshal env payload) as [body|err];
    [| eexists; split; [reflexivity | discriminate]].
  destruct (http_NewRequest env "POST" url body) as [err|];
    [eexists; split; [reflexivity | discriminate] |].
  unfold bind, turn, emit. simpl.
  destruct (client_Do env _ url body) as [[code [content|err]]|err]; simpl;
    try (eexists; split; [reflexivity | discriminate]).
  destruct (json_Unmarshal env content) as [response|err] eqn:Hd;
    (eexists; split; [reflexivity |]); [| discriminate].
  intros r Hr. injection Hr as <-. now exists content.
Qed.

(** The handler returns, or panics in one of two ways. *)
Lemma handle_outcome (response : SigningResponse) (w : World) :
  (exists e, fst (handleCertificateResponse env c response w) = Val e) \/
  (fst (handleCertificateResponse env c response w) = Panic index_panic /\
   Success response = false /\ Errors response = []) \/
  (fst (handleCertificateResponse env c response w) = Panic nil_panic /\
   ExecCommand c <> "" /\
   exists start_err,
     hook_run env (attempt w) (ExecCommand c)
              [CertificateFile env c; PrivateKeyFile env c; CAFile env c] (Timeout c)
       = StartFailed start_err true).
Proof.
  destruct (Success response) eqn:Hs.
  - destruct (string_dec (Certificate (Result response)) "") as [Hc|Hc].
    { rewrite handle_no_certificate by assumption. left. now eexists. }
    destruct (open_fault env (attempt w) (CertificateFile env c)) as [oerr|] eqn:Ho.
    { rewrite handle_open_fault with (err := oerr) by assumption. left. now eexists. }
    destruct (write_fault env (attempt w) (CertificateFile env c) (persisted_text response))
      as [[n werr]|] eqn:Hw.
    { rewrite handle_write_fault with (n := n) (err := werr) by assumption.
      left. now eexists. }
    destruct (string_dec (ExecCommand c) "") as [Hx|Hx].
    { rewrite handle_written by assumption. left. now eexists. }
    rewrite handle_hook by assumption.
    destruct (hook_run env (attempt w) (ExecCommand c) _ (Timeout c))
      as [serr [|] | kill werr] eqn:Hh; simpl.
    + right. right. split; [reflexivity | split; [exact Hx | now exists serr]].
    + left. now eexists.
    + left. now eexists.
  - destruct (Errors response) as [|first rest] eqn:He.
    + rewrite handle_unsuccessful_empty by assumption. right. left. now repeat split.
    + rewrite handle_unsuccessful with (first := first) (rest := rest) by assumption.
      left. now eexists.
Qed.

(** An acquisition returns, or panics in one of the two ways. *)
Lemma acquire_outcome (w : World) :
  match fst (acquire env c encoded w) with
  | Val _ => True
  | Panic msg => panic_cause env c msg
  | Exit _ | Running => False
  end.
Proof.
  unfold acquire, bind.
  set (request := mkSigningRequest encoded (EndpointProfile c) true).
  destruct (doSigningRequest_answer request w) as (answer & Hans & Hdec).
  destruct (doSigningRequest env c request w) as [r w1]. simpl in Hans. subst r.
  destruct answer as [response|err]; [| exact I].
  destruct (Hdec response eq_refl) as [content Hcontent].
  destruct (handle_outcome response w1) as [[e He] | [(Hp & Hs & Hl) | (Hp & Hx & serr & Hh)]].
  - now rewrite He.
  - rewrite Hp. left. split; [reflexivity |]. now exists content, response.
  - rewrite Hp. right. split; [reflexivity | split; [exact Hx |]]. now exists (attempt w1), serr.
Qed.

(** The acquisition of a turn, seen from the world in which the turn
    starts. *)
Lemma run_turn_cases (w : World) :
  exists d w1,
    acquire env c encoded (announced env c w) =
      (fst (acquire env c encoded (probe (attempt w))), w1) /\
    trace w1 = trace w ++ attempt_log env c :: d /\
    forallb inner d = true /\
    attempt w1 = attempt w.
Proof.
  destruct (inner_acquire env c encoded (announced env c w)) as (d & Ht & HP & Ha & _).
  exists d, (snd (acquire env c encoded (announced env c w))).
  split; [| split; [| split]].
  - pose proof (acquire_verdict env c encoded (announced env c w)) as Hv.
    change (attempt (announced env c w)) with (attempt w) in Hv.
    rewrite <- Hv. now destruct (acquire env c encoded (announced env c w)).
  - rewrite Ht. unfold announced. simpl. now rewrite <- app_assoc.
  - exact HP.
  - exact Ha.
Qed.

(** Every way in which the loop can stop. *)
Lemma run_loop_cases (fuel : nat) :
  forall w, exists d,
    trace (snd (run_loop env c fuel encoded w)) = trace w ++ d /\
    match fst (run_loop env c fuel encoded w) with
    | Val _ => False
    | Running => True
    | Exit code =>
        code = 0 /\ Onetime c = true /\
        exists d0,
          d = d0 ++ [success_log env c; EvSend true; onetime_log; EvExit 0] /\
          List.filter is_exit d0 = [] /\ List.filter is_send d0 = []
    | Panic msg => panic_cause env c msg
    end.
Proof.
  induction fuel as [|fuel IH]; intros w.
  { exists []. simpl. now rewrite app_nil_r. }
  destruct (run_turn_cases w) as (d0 & w1 & Hacq & Ht & Hin & Ha).
  pose proof (run_turn_acquire env c encoded w) as Hturn. rewrite Hacq in Hturn.
  pose proof (acquire_outcome (probe (attempt w))) as Hout.
  destruct (inner_quiet d0 Hin) as (_ & He0 & Hn0).
  assert (Hgo : forall w', run_turn env c encoded w = (Val tt, w') ->
            run_loop env c (S fuel) encoded w =
            run_loop env c fuel encoded (set_attempt (S (attempt w')) w')).
  { intros w' E. simpl. unfold bind at 1. rewrite E. reflexivity. }
  assert (Hstop : forall r w', run_turn env c encoded w = (r, w') ->
            (forall u, r <> Val u) ->
            exists r', run_loop env c (S fuel) encoded w = (r', w') /\
                       match r, r' with
                       | Panic m, Panic m' => m = m'
                       | Exit k, Exit k' => k = k'
                       | Running, Running => True
                       | _, _ => False
                       end).
  { intros r w' E Hr. simpl. unfold bind at 1. rewrite E.
    destruct r as [u| m | k |]; [now destruct (Hr u) | | |]; eexists; split;
      reflexivity || exact I. }
  destruct (fst (acquire env c encoded (probe (attempt w)))) as [[err|] | msg | code | ];
    try contradiction; cbv beta iota in Hturn.
  - destruct Hturn as [m Hturn]. rewrite (Hgo _ Hturn).
    set (w2 := set_attempt _ _).
    destruct (IH w2) as (d' & Ht' & Hcase).
    exists (attempt_log env c :: d0 ++
            [EvLog ErrorLevel m [("error", err)]; EvSleep (5 * Second)] ++ d').
    split.
    { rewrite Ht'. unfold w2. simpl. rewrite Ht. now rewrite <- !app_assoc. }
    destruct (fst (run_loop env c fuel encoded w2)); auto.
    destruct Hcase as (Hc & Ho & d1 & Hd & He1 & Hn1).
    split; [exact Hc | split; [exact Ho |]].
    exists (attempt_log env c :: d0 ++
            [EvLog ErrorLevel m [("error", err)]; EvSleep (5 * Second)] ++ d1).
    rewrite Hd. split; [simpl; now rewrite <- !app_assoc |].
    unfold attempt_log. simpl. rewrite !List.filter_app, He0, Hn0. simpl. now split.
  - destruct (Onetime c) eqn:Ho.
    + destruct (Hstop _ _ Hturn) as (r' & Hrun & Hr'); [discriminate |].
      rewrite Hrun. simpl.
      exists (attempt_log env c :: d0 ++
              [success_log env c; EvSend true; onetime_log; EvExit 0]).
      rewrite Ht. split; [now rewrite <- app_assoc |].
      destruct r'; try contradiction. subst.
      split; [reflexivity | split; [reflexivity |]].
      exists (attempt_log env c :: d0). split; [reflexivity |].
      unfold attempt_log. simpl. now split.
    + rewrite (Hgo _ Hturn).
      set (w2 := set_attempt _ _).
      destruct (IH w2) as (d' & Ht' & Hcase).
      exists (attempt_log env c :: d0 ++
              [success_log env c; EvSend true; rotation_log env c; EvSleep (Expiry c)] ++ d').
      split.
      { rewrite Ht'. unfold w2. simpl. rewrite Ht. now rewrite <- !app_assoc. }
      destruct (fst (run_loop env c fuel encoded w2)); auto.
      destruct Hcase as (_ & Hcontra & _). discriminate.
  - destruct (Hstop _ _ Hturn) as (r' & Hrun & Hr'); [discriminate |].
    rewrite Hrun. simpl. exists (attempt_log env c :: d0). split; [exact Ht |].
    destruct r'; try contradiction. now subst.
Qed.

Lemma run_loop_never_returns (fuel : nat) (w : World) (e : option error) :
  fst (run_loop env c fuel encoded w) <> Val e.
Proof.
  destruct (run_loop_cases fuel w) as (d & _ & H). intros E. now rewrite E in H.
Qed.

End RunFacts.

(** The start-up of [run], step by step. *)
Lemma run_startup env c (fuel : nat) (w : World) :
  let mkdir := EvMkdirAll (CertsDir c) FileMode_0770 in
  match os_MkdirAll env (CertsDir c) FileMode_0770 with
  | Some err =>
      run env c fuel w =
        (Val (Some ("failed to ensure certficate directory: " +:+ err)),
         set_trace (trace w ++ [mkdir]) w)
  | None =>
      match createCertificateRequest env c with
      | Bad err =>
          run env c fuel w =
            (Val (Some ("failed to generate csr: " +:+ err)),
             set_trace (trace w ++ [mkdir; EvCreateCSR]) w)
      | Good (_, csr) =>
          match encodeCertificateRequest env csr with
          | Bad err =>
              run env c fuel w =
                (Val (Some ("failed to encode csr: " +:+ err)),
                 set_trace (trace w ++ [mkdir; EvCreateCSR; EvEncodeCSR]) w)
          | Good encoded =>
              run env c fuel w =
                run_loop env c fuel encoded
                  (set_trace (trace w ++ [mkdir; EvCreateCSR; EvEncodeCSR;
                                          EvWatchdog (Timeout c)]) w)
          end
      end
  end.
Proof.
  destruct w as [f d t a].
  unfold run, bind, emit, makeOperationTimeout, ret, set_trace. simpl.
  destruct (os_MkdirAll env (CertsDir c) FileMode_0770) as [err|]; [reflexivity |].
  destruct (createCertificateRequest env c) as [[key csr]|err];
    [| simpl; now rewrite <- ?app_assoc].
  destruct (encodeCertificateRequest env csr) as [encoded|err];
    simpl; now rewrite <- ?app_assoc.
Qed.

(** X7. [run] returns exactly when one of the three steps of its start-up
    fails (the directory of the certificates, the construction of the CSR,
    its encoding), and then with the error of that step behind the prefix of
    the step; once the loop is entered [run] does not return, and it never
    returns nil. *)
Theorem run_returns_only_a_startup_error env c (fuel : nat) (w : World) (e : option error) :
  fst (run env c fuel w) = Val e <->
  ((exists cause,
      os_MkdirAll env (CertsDir c) FileMode_0770 = Some cause /\
      e = Some ("failed to ensure certficate directory: " +:+ cause))
   \/
   (os_MkdirAll env (CertsDir c) FileMode_0770 = None /\
    exists cause,
      createCertificateRequest env c = Bad cause /\
      e = Some ("failed to generate csr: " +:+ cause))
   \/
   (os_MkdirAll env (CertsDir c) FileMode_0770 = None /\
    exists key csr cause,
      createCertificateRequest env c = Good (key, csr) /\
      encodeCertificateRequest env csr = Bad cause /\
      e = Some ("failed to encode csr: " +:+ cause))).
Proof.
  pose proof (run_startup env c fuel w) as H. cbv zeta in H.
  destruct (os_MkdirAll env (CertsDir c) FileMode_0770) as [err|].
  { rewrite H. simpl. split.
    - intros E. injection E as <-. left. now exists err.
    - intros [(cause & Hc & ->) | [(Hc & _) | (Hc & _)]]; try discriminate.
      now injection Hc as ->. }
  destruct (createCertificateRequest env c) as [[key csr]|err].
  2:{ rewrite H. simpl. split.
      - intros E. injection E as <-. right. left. split; [reflexivity |]. now exists err.
      - intros [(cause & Hc & _) | [(_ & cause & Hc & ->) | (_ & k & s & cause & Hc & _)]];
          try discriminate.
        now injection Hc as ->. }
  destruct (encodeCertificateRequest env csr) as [encoded|err] eqn:Henc.
  2:{ rewrite H. simpl. split.
      - intros E. injection E as <-. right. right. split; [reflexivity |].
        now exists key, csr, err.
      - intros [(cause & Hc & _) | [(_ & cause & Hc & _) | (_ & k & s & cause & Hc & He & ->)]];
          try discriminate.
        injection Hc as -> ->. rewrite Henc in He. now injection He as ->. }
  rewrite H. split.
  - intros E. now apply run_loop_never_returns in E.
  - intros [(cause & Hc & _) | [(_ & cause & Hc & _) | (_ & k & s & cause & Hc & He & _)]];
      try discriminate.
    injection Hc as -> ->. rewrite Henc in He. discriminate.
Qed.

(** X8. The only exit that [run] itself makes is the one of the one-shot
    mode: it has the status 0, it happens only when the one-shot mode is
    configured, and it follows at once the first successful acquisition, the
    log of the success and the one signal sent to the watchdog of the
    start-up.  In continuous mode [run] never exits. *)
Theorem run_exits_only_in_one_shot_mode env c (fuel : nat) (w : World) (code : Z) :
  fst (run env c fuel w) = Exit code ->
  code = 0 /\ Onetime c = true /\
  exists d,
    trace (snd (run env c fuel w)) =
      trace w ++ d ++ [success_log env c; EvSend true; onetime_log; EvExit 0] /\
    List.filter is_exit d = [] /\
    List.filter is_send d = [].
Proof.
  pose proof (run_startup env c fuel w) as H. cbv zeta in H.
  destruct (os_MkdirAll env (CertsDir c) FileMode_0770) as [err|];
    [rewrite H; discriminate |].
  destruct (createCertificateRequest env c) as [[key csr]|err];
    [| rewrite H; discriminate].
  destruct (encodeCertificateRequest env csr) as [encoded|err];
    [| rewrite H; discriminate].
  rewrite H. intros E.
  match goal with
  | |- context [run_loop env c fuel encoded ?w0] =>
      destruct (run_loop_cases env c encoded fuel w0) as (d & Ht & Hcase)
  end.
  rewrite E in Hcase. destruct Hcase as (Hc & Ho & d0 & Hd & He & Hs).
  split; [exact Hc | split; [exact Ho |]].
  exists ([EvMkdirAll (CertsDir c) FileMode_0770; EvCreateCSR; EvEncodeCSR;
           EvWatchdog (Timeout c)] ++ d0).
  rewrite Ht, Hd. simpl. rewrite <- !app_assoc. simpl.
  split; [reflexivity | now split].
Qed.

Lemma run_exits_only_in_one_shot_mode_witness :
  0 = 0 /\ Onetime (Demo.with_onetime Demo.config) = true /\
  exists d,
    trace (snd (run Demo.third_time_lucky (Demo.with_onetime Demo.config) 5 (probe 0))) =
      trace (probe 0) ++ d ++
      [success_log Demo.third_time_lucky (Demo.with_onetime Demo.config);
       EvSend true; onetime_log; EvExit 0] /\
    List.filter is_exit d = [] /\
    List.filter is_send d = [].
Proof.
  apply (run_exits_only_in_one_shot_mode Demo.third_time_lucky
           (Demo.with_onetime Demo.config) 5 (probe 0) 0).
  reflexivity.
Defined.

(** X9. [run] panics in two ways only: with the index error, which needs a
    response body that decodes to a refusal without any error entry; and
    with the nil dereference, which needs a configured reload command whose
    start fails while its deadline function still runs.  With a decoder that
    gives no such response and without a reload command, [run] does not
    panic. *)
Theorem run_panics_in_two_ways_only env c (fuel : nat) (w : World) (msg : string) :
  fst (run env c fuel w) = Panic msg ->
  (msg = "runtime error: index out of range" /\
   exists content response,
     json_Unmarshal env content = Good response /\
     Success response = false /\ Errors response = [])
  \/
  (msg = "runtime error: invalid memory address or nil pointer dereference" /\
   ExecCommand c <> "" /\
   exists i start_err,
     hook_run env i (ExecCommand c)
              [CertificateFile env c; PrivateKeyFile env c; CAFile env c] (Timeout c)
       = StartFailed start_err true).
Proof.
  pose proof (run_startup env c fuel w) as H. cbv zeta in H.
  destruct (os_MkdirAll env (CertsDir c) FileMode_0770) as [err|];
    [rewrite H; discriminate |].
  destruct (createCertificateRequest env c) as [[key csr]|err];
    [| rewrite H; discriminate].
  destruct (encodeCertificateRequest env csr) as [encoded|err];
    [| rewrite H; discriminate].
  rewrite H. intros E.
  match type of E with
  | context [run_loop env c fuel encoded ?w0] =>
      destruct (run_loop_cases env c encoded fuel w0) as (d & _ & Hcase)
  end.
  rewrite E in Hcase. exact Hcase.
Qed.

Lemma run_panics_in_two_ways_only_witness :
  ("runtime error: index out of range" = "runtime error: index out of range" /\
   exists content response,
     json_Unmarshal Scenario.silent_refusal content = Good response /\
     Success response = false /\ Errors response = [])
  \/
  ("runtime error: index out of range" =
     "runtime error: invalid memory address or nil pointer dereference" /\
   ExecCommand Demo.config <> "" /\
   exists i start_err,
     hook_run Scenario.silent_refusal i (ExecCommand Demo.config)
              [CertificateFile Scenario.silent_refusal Demo.config;
               PrivateKeyFile Scenario.silent_refusal Demo.config;
               CAFile Scenario.silent_refusal Demo.config] (Timeout Demo.config)
       = StartFailed start_err true).
Proof.
  apply (run_panics_in_two_ways_only Scenario.silent_refusal Demo.config 1 (probe 0)
           "runtime error: index out of range").
  reflexivity.
Defined.

Section AttemptFacts.

Variable env : Env.
Variable c : Config.
Variable encoded : string.

(** [n] failed attempts in a row, with what is sent meanwhile. *)
Lemma failed_turns (n : nat) :
  forall w,
    (forall i, (attempt w <= i < attempt w + n)%nat ->
               attempt_fails env c encoded i = true) ->
    exists w' d,
      (forall fuel, run_loop env c (n + fuel) encoded w = run_loop env c fuel encoded w') /\
      trace w' = trace w ++ d /\
      List.filter is_sleep d = repeat (EvSleep (5 * Second)) n /\
      List.filter is_send d = [] /\
      List.filter is_exit d = [] /\
      attempt w' = (attempt w + n)%nat.
Proof.
  induction n as [|n IH]; intros w Hfail.
  { exists w, []. rewrite app_nil_r, Nat.add_0_r. now repeat split. }
  destruct (run_turn_cases env c encoded w) as (d0 & w1 & Hacq & Ht & Hin & Ha).
  pose proof (run_turn_acquire env c encoded w) as Hturn. rewrite Hacq in Hturn.
  destruct (inner_quiet d0 Hin) as (Hs0 & He0 & Hn0).
  assert (Hnow : attempt_fails env c encoded (attempt w) = true) by (apply Hfail; lia).
  unfold attempt_fails in Hnow.
  destruct (fst (acquire env c encoded (probe (attempt w)))) as [[err|] | msg | code | ];
    try discriminate; cbv beta iota in Hturn.
  destruct Hturn as [m Hturn].
  set (w2 := set_attempt (S (attempt w1))
               (set_trace (trace w1 ++ [EvLog ErrorLevel m [("error", err)];
                                        EvSleep (5 * Second)]) w1)).
  destruct (IH w2) as (w' & d' & Hrun & Ht' & Hs' & Hn' & He' & Ha').
  { intros i Hi. apply Hfail. unfold w2 in Hi. simpl in Hi. lia. }
  exists w', (attempt_log env c :: d0 ++
              [EvLog ErrorLevel m [("error", err)]; EvSleep (5 * Second)] ++ d').
  split; [| split; [| split; [| split; [| split]]]].
  - intros fuel. simpl. unfold bind at 1. rewrite Hturn.
    unfold bind at 1, next_turn. apply Hrun.
  - rewrite Ht'. unfold w2. simpl. rewrite Ht. now rewrite <- !app_assoc.
  - unfold attempt_log. simpl. rewrite List.filter_app, Hs0. simpl. now rewrite Hs'.
  - unfold attempt_log. simpl. rewrite List.filter_app, Hn0. simpl. now rewrite Hn'.
  - unfold attempt_log. simpl. rewrite List.filter_app, He0. simpl. now rewrite He'.
  - rewrite Ha'. unfold w2. simpl. lia.
Qed.

(** A handler that returns nil has written the certificate file and closed
    it last. *)
Lemma handle_success_closes (response : SigningResponse) (w : World) :
  fst (handleCertificateResponse env c response w) = Val None ->
  exists d,
    trace (snd (handleCertificateResponse env c response w)) =
      trace w ++ d ++ [EvClose (CertificateFile env c)] /\
    exists text, In (EvWriteString (CertificateFile env c) text) d.
Proof.
  intros Hr.
  destruct (Success response) eqn:Hs.
  - destruct (string_dec (Certificate (Result response)) "") as [Hc|Hc].
    { rewrite handle_no_certificate in Hr by assumption. discriminate. }
    destruct (open_fault env (attempt w) (CertificateFile env c)) as [oerr|] eqn:Ho.
    { rewrite handle_open_fault with (err := oerr) in Hr by assumption. discriminate. }
    destruct (write_fault env (attempt w) (CertificateFile env c) (persisted_text response))
      as [[n werr]|] eqn:Hw.
    { rewrite handle_write_fault with (n := n) (err := werr) in Hr by assumption.
      discriminate. }
    destruct (string_dec (ExecCommand c) "") as [Hx|Hx].
    { rewrite handle_written by assumption. simpl.
      exists [writing_log env c;
              EvOpenFile (CertificateFile env c) cert_open_flags FileMode_0600;
              EvWriteString (CertificateFile env c) (persisted_text response)].
      split; [reflexivity |]. exists (persisted_text response). simpl. tauto. }
    rewrite handle_hook in Hr |- * by assumption.
    destruct (hook_crashes _); [discriminate |]. simpl.
    eexists ([_; _; _] ++ hook_trace env c _).
    split; [now rewrite <- !app_assoc |].
    exists (persisted_text response). simpl. tauto.
  - destruct (Errors response) as [|first rest] eqn:He.
    + rewrite handle_unsuccessful_empty in Hr by assumption. discriminate.
    + rewrite handle_unsuccessful with (first := first) (rest := rest) in Hr by assumption.
      discriminate.
Qed.

Lemma acquire_success_closes (w : World) :
  fst (acquire env c encoded w) = Val None ->
  exists d,
    trace (snd (acquire env c encoded w)) =
      trace w ++ d ++ [EvClose (CertificateFile env c)] /\
    exists text, In (EvWriteString (CertificateFile env c) text) d.
Proof.
  unfold acquire, bind.
  set (request := mkSigningRequest encoded (EndpointProfile c) true).
  pose proof (doSigningRequest_trace env c request w) as Hq.
  destruct (doSigningRequest env c request w) as [[[response|err]| | |] w1];
    simpl in Hq |- *; try discriminate.
  intros Hr. destruct (handle_success_closes response w1 Hr) as (d & Ht & text & Hin).
  exists (request_events env c request ++ d). rewrite Ht, Hq.
  split; [now rewrite <- !app_assoc |].
  exists text. apply in_or_app. now right.
Qed.

End AttemptFacts.

(** X10. The watchdog of the start-up is signalled by a successful
    acquisition only, and only once the certificate has been written and its
    file closed: while the attempts fail nothing is sent, and in the turn of
    the first success the one [true] follows the close of the certificate
    file and the log of the success, and comes before the exit of the
    one-shot mode or the sleep of the rotation interval. *)
Theorem watchdog_signalled_after_the_file_is_closed env c (encoded : string) (n : nat)
    (w : World) :
  (forall i, (attempt w <= i < attempt w + n)%nat ->
             attempt_fails env c encoded i = true) ->
  attempt_succeeds env c encoded (attempt w + n) = true ->
  exists before after,
    trace (snd (run_loop env c (n + 1) encoded w)) =
      trace w ++ before ++
      [EvClose (CertificateFile env c); success_log env c; EvSend true] ++ after /\
    List.filter is_send before = [] /\
    (exists text, In (EvWriteString (CertificateFile env c) text) before) /\
    (Onetime c = true /\ after = [onetime_log; EvExit 0] \/
     Onetime c = false /\ after = [rotation_log env c; EvSleep (Expiry c)]).
Proof.
  intros Hfail Hok.
  destruct (failed_turns env c encoded n w Hfail) as (w' & d & Hrun & Ht & _ & Hn & _ & Ha).
  rewrite Hrun.
  pose proof (run_turn_acquire env c encoded w') as Hturn.
  pose proof (acquire_verdict env c encoded (announced env c w')) as Hv.
  change (attempt (announced env c w')) with (attempt w') in Hv.
  unfold attempt_succeeds in Hok. rewrite <- Ha, <- Hv in Hok.
  assert (Hnone : fst (acquire env c encoded (announced env c w')) = Val None).
  { destruct (fst (acquire env c encoded (announced env c w'))) as [[e|]| | |];
      try discriminate. reflexivity. }
  destruct (acquire_success_closes env c encoded _ Hnone) as (dd & Hdd & text & Hin).
  destruct (inner_acquire env c encoded (announced env c w')) as (d0 & Ht0 & Hin0 & _ & _).
  rewrite Hdd in Ht0. apply app_inv_head in Ht0. subst d0.
  rewrite forallb_app in Hin0. apply andb_true_iff in Hin0 as [Hin0 _].
  destruct (inner_quiet dd Hin0) as (_ & _ & Hndd).
  destruct (acquire env c encoded (announced env c w')) as [r w1].
  simpl in Hnone, Hdd. subst r. cbv beta iota in Hturn.
  exists (d ++ attempt_log env c :: dd).
  simpl run_loop. unfold bind at 1. rewrite Hturn.
  destruct (Onetime c).
  - exists [onetime_log; EvExit 0]. simpl. rewrite Hdd, Ht. unfold announced. simpl.
    split; [now rewrite <- !app_assoc |].
    split; [rewrite List.filter_app, Hn; unfold attempt_log; simpl; exact Hndd |].
    split; [exists text; apply in_or_app; right; now right | now left].
  - exists [rotation_log env c; EvSleep (Expiry c)].
    unfold bind at 1, next_turn. simpl. rewrite Hdd, Ht. unfold announced. simpl.
    split; [now rewrite <- !app_assoc |].
    split; [rewrite List.filter_app, Hn; unfold attempt_log; simpl; exact Hndd |].
    split; [exists text; apply in_or_app; right; now right | now right].
Qed.

Lemma watchdog_signalled_after_the_file_is_closed_witness :
  exists before after,
    trace (snd (run_loop Demo.third_time_lucky Demo.config (2 + 1) "PEM CSR" (probe 0))) =
      trace (probe 0) ++ before ++
      [EvClose (CertificateFile Demo.third_time_lucky Demo.config);
       success_log Demo.third_time_lucky Demo.config; EvSend true] ++ after /\
    List.filter is_send before = [] /\
    (exists text,
       In (EvWriteString (CertificateFile Demo.third_time_lucky Demo.config) text) before) /\
    (Onetime Demo.config = true /\ after = [onetime_log; EvExit 0] \/
     Onetime Demo.config = false /\
     after = [rotation_log Demo.third_time_lucky Demo.config;
              EvSleep (Expiry Demo.config)]).
Proof.
  apply (watchdog_signalled_after_the_file_is_closed Demo.third_time_lucky Demo.config
           "PEM CSR" 2 (probe 0)).
  - intros i Hi. simpl in Hi.
    destruct i as [|[|i]]; [reflexivity | reflexivity | lia].
  - reflexivity.
Defined.



(** ** The start of the program *)


Lemma fold_left_append {A B} (f : A -> B) (l : list A) :
  forall acc, fold_left (fun out x => out ++ [f x]) l acc = acc ++ List.map f l.
Proof.
  induction l as [|x l IH]; intros acc; simpl.
  - now rewrite app_nil_r.
  - rewrite IH. now rewrite <- app_assoc.
Qed.

(** X12. [newController] gives a controller exactly when the configuration
    is valid and the HTTP client can be built, and the controller holds that
    configuration and that client.  The validation comes first: an invalid
    configuration is refused with the logger left as it was.  A valid one
    switches the logger to the JSON format, and to the debug level exactly
    when [Verbose] is set, before the client is built, so also when building
    the client fails. *)
Theorem newController_validates_then_sets_the_logger (s : Startup) (c : Config)
    (lg : Logrus.Logger) :
  let r := newController s c lg in
  ((exists ctl, fst r = Good ctl) <->
   IsValid s c = None /\ exists cl, createHTTPClient s c = Good cl) /\
  (forall ctl, fst r = Good ctl ->
     config ctl = c /\ createHTTPClient s c = Good (client ctl)) /\
  (forall err, fst r = Bad err ->
     IsValid s c = Some err \/ IsValid s c = None /\ createHTTPClient s c = Bad err) /\
  (IsValid s c <> None -> snd r = lg) /\
  (IsValid s c = None ->
   Logrus.formatter (snd r) = Logrus.JSONFormatter /\
   Logrus.level (snd r) = if Verbose c then Logrus.DebugLevel else Logrus.level lg).
Proof.
  unfold newController.
  destruct (IsValid s c) as [verr|] eqn:Hv.
  - simpl. split; [split; [intros [ctl H]; discriminate | intros [H _]; discriminate] |].
    split; [discriminate |].
    split; [intros err H; injection H as <-; now left |].
    split; [reflexivity | discriminate].
  - destruct (createHTTPClient s c) as [cl|cerr] eqn:Hc; simpl.
    + split; [split; [intros _; split; [reflexivity | now exists cl]
                     | intros _; now eexists] |].
      split; [intros ctl H; injection H as <-; now split |].
      split; [discriminate |].
      split; [intros H; now destruct H |].
      intros _. split; [reflexivity | now destruct (Verbose c)].
    + split; [split; [intros [ctl H]; discriminate | intros [_ [cl H]]; discriminate] |].
      split; [discriminate |].
      split; [intros err H; injection H as <-; now right |].
      split; [intros H; now destruct H |].
      intros _. split; [reflexivity | now destruct (Verbose c)].
Qed.


(** X14. The domains of the configuration are the values of the flag
    [domain] with their placeholders expanded: one domain for each value, in
    the order of the command line, none dropped and none merged. *)
Theorem domains_are_expanded_in_order (s : Startup) (ctx : Flags) :
  Domains (config_of_flags s ctx) = List.map (os_ExpandEnv s) (flag_domain ctx).
Proof.
  unfold config_of_flags, expand_domains. simpl. now rewrite fold_left_append.
Qed.

(** ** What the loop leaves behind *)

Section FrameFacts.

Variable env : Env.
Variable c : Config.
Variable encoded : string.

Lemma handle_frame (response : SigningResponse) (w : World) :
  (forall name, name <> CertificateFile env c ->
     fs (snd (handleCertificateResponse env c response w)) !! name = fs w !! name) /\
  (forall e, fst (handleCertificateResponse env c response w) = Val e ->
     fds (snd (handleCertificateResponse env c response w)) = fds w).
Proof.
  destruct (Success response) eqn:Hs.
  - destruct (string_dec (Certificate (Result response)) "") as [Hc|Hc].
    { rewrite handle_no_certificate by assumption. now split. }
    destruct (open_fault env (attempt w) (CertificateFile env c)) as [oerr|] eqn:Ho.
    { rewrite handle_open_fault with (err := oerr) by assumption. now split. }
    destruct (write_fault env (attempt w) (CertificateFile env c) (persisted_text response))
      as [[n werr]|] eqn:Hw.
    { rewrite handle_write_fault with (n := n) (err := werr) by assumption. simpl.
      split; [intros name Hn; now apply lookup_insert_ne | reflexivity]. }
    destruct (string_dec (ExecCommand c) "") as [Hx|Hx].
    { rewrite handle_written by assumption. simpl.
      split; [intros name Hn; now apply lookup_insert_ne | reflexivity]. }
    rewrite handle_hook by assumption.
    destruct (hook_crashes _); simpl;
      (split; [intros name Hn; now apply lookup_insert_ne |]);
      [discriminate | reflexivity].
  - destruct (Errors response) as [|first rest] eqn:He.
    + rewrite handle_unsuccessful_empty by assumption. now split.
    + rewrite handle_unsuccessful with (first := first) (rest := rest) by assumption.
      now split.
Qed.

Lemma acquire_frame (w : World) :
  (forall name, name <> CertificateFile env c ->
     fs (snd (acquire env c encoded w)) !! name = fs w !! name) /\
  (forall e, fst (acquire env c encoded w) = Val e ->
     fds (snd (acquire env c encoded w)) = fds w).
Proof.
  unfold acquire, bind.
  set (request := mkSigningRequest encoded (EndpointProfile c) true).
  destruct (doSigningRequest_world env c request w) as [t Ht].
  destruct (doSigningRequest env c request w) as [[[response|err]| | |] w1];
    simpl in Ht; subst w1; try (now split).
  destruct (handle_frame response (set_trace t w)) as [Hfs Hfds].
  split; [exact Hfs | exact Hfds].
Qed.

Lemma run_turn_frame (w : World) :
  (forall name, name <> CertificateFile env c ->
     fs (snd (run_turn env c encoded w)) !! name = fs w !! name) /\
  ((forall msg, fst (run_turn env c encoded w) <> Panic msg) ->
   fds (snd (run_turn env c encoded w)) = fds w).
Proof.
  pose proof (run_turn_acquire env c encoded w) as Hturn.
  pose proof (acquire_outcome env c encoded (announced env c w)) as Hout.
  destruct (acquire_frame (announced env c w)) as [Hfs Hfds].
  destruct (acquire env c encoded (announced env c w)) as [[[err|]| msg | code |] w1];
    simpl in Hout, Hfs, Hfds; try contradiction.
  - destruct Hturn as [m Hturn]. rewrite Hturn. simpl.
    split; [exact Hfs | intros _; now apply (Hfds (Some err))].
  - rewrite Hturn. destruct (Onetime c); simpl;
      (split; [exact Hfs | intros _; now apply (Hfds None)]).
  - rewrite Hturn. simpl. split; [exact Hfs |]. intros H. now destruct (H msg).
Qed.

Lemma run_loop_frame (fuel : nat) :
  forall w,
    (forall name, name <> CertificateFile env c ->
       fs (snd (run_loop env c fuel encoded w)) !! name = fs w !! name) /\
    ((forall msg, fst (run_loop env c fuel encoded w) <> Panic msg) ->
     fds (snd (run_loop env c fuel encoded w)) = fds w).
Proof.
  induction fuel as [|fuel IH]; intros w; [now split |].
  destruct (run_turn_frame w) as [Hfs Hfds].
  simpl. unfold bind at 1 3 5.
  destruct (run_turn env c encoded w) as [[[]| msg | code |] w1]; simpl in Hfs, Hfds.
  - unfold bind, next_turn.
    destruct (IH (set_attempt (S (attempt w1)) w1)) as [Hfs' Hfds'].
    split.
    + intros name Hn. rewrite Hfs' by exact Hn. now apply Hfs.
    + intros Hp. rewrite Hfds' by exact Hp. simpl. now apply Hfds.
  - simpl. split; [exact Hfs |]. intros H. now destruct (H msg).
  - simpl. split; [exact Hfs |]. intros _. now apply Hfds.
  - simpl. split; [exact Hfs |]. intros _. now apply Hfds.
Qed.

End FrameFacts.

(** X15. Over any number of turns the loop itself writes no file but the
    certificate file (the reload command is a process of its own): every
    other path of the file system is as it was when the loop was entered,
    whatever the attempts came to. *)
Theorem loop_writes_only_the_certificate_file env c (encoded : string) (fuel : nat)
    (w : World) (name : string) :
  name <> CertificateFile env c ->
  fs (snd (run_loop env c fuel encoded w)) !! name = fs w !! name.
Proof.
  intros Hn. now apply run_loop_frame.
Qed.

Lemma loop_writes_only_the_certificate_file_witness :
  fs (snd (run_loop Demo.third_time_lucky Demo.config 4 "PEM CSR" Demo.renewed))
    !! "/certs/tls-key.pem" = fs Demo.renewed !! "/certs/tls-key.pem".
Proof.
  apply (loop_writes_only_the_certificate_file Demo.third_time_lucky Demo.config
           "PEM CSR" 4 Demo.renewed "/certs/tls-key.pem").
  intros H. vm_compute in H. discriminate H.
Defined.

(** X16. The files opened by the handler do not pile up over the rotations:
    as long as no turn panics, the descriptors open after any number of turns
    are those that were open when the loop was entered, failed attempts and
    failed writes included. *)
Theorem loop_leaves_no_file_open env c (encoded : string) (fuel : nat) (w : World) :
  (forall msg, fst (run_loop env c fuel encoded w) <> Panic msg) ->
  fds (snd (run_loop env c fuel encoded w)) = fds w.
Proof.
  intros Hp. now apply run_loop_frame.
Qed.

Lemma loop_leaves_no_file_open_witness :
  fds (snd (run_loop Demo.disk_full Demo.config 3 "PEM CSR" Demo.renewed)) =
  fds Demo.renewed.
Proof.
  apply (loop_leaves_no_file_open Demo.disk_full Demo.config "PEM CSR" 3 Demo.renewed).
  intros msg H. vm_compute in H. discriminate H.
Defined.
